(** * flaskulal: the PDF rename engine and the coupon endpoint of [app.py]

    A shallow embedding of [src/app.py].  Python strings are sequences of
    Unicode code points, modelled as lists of [N]; the library calls the
    program makes ([str.split], [str.strip], [in], [re.sub] on a character
    class, [os.path.splitext], [str.zfill], ...) are written out as
    executable functions. *)

From Stdlib Require Import List NArith ZArith Bool String Ascii Lia.
From Stdlib Require Import DecimalString DecimalN DecimalZ.
Import ListNotations.

(** ** Python strings *)

Module PyStr.

Local Open Scope N_scope.

Definition char := N.
Definition str := list char.

(** An ASCII literal of the source, as code points. *)
Definition lit (s : string) : str := map N_of_ascii (list_ascii_of_string s).

Definition eqb (a b : str) : bool :=
  if list_eq_dec N.eq_dec a b then true else false.

(** [b.startswith(a)] *)
Fixpoint startswith (a b : str) : bool :=
  match a, b with
  | [], _ => true
  | _ :: _, [] => false
  | x :: a', y :: b' => N.eqb x y && startswith a' b'
  end.

(** [a in b]: [a] occurs in [b] at some offset. *)
Fixpoint contiene (a b : str) : bool :=
  startswith a b ||
  match b with
  | [] => false
  | _ :: b' => contiene a b'
  end.

(** [b.endswith(a)] *)
Definition endswith (a b : str) : bool := startswith (rev a) (rev b).

(** [s.split('\n')]: never empty, [''.split('\n') == ['']]. *)
Fixpoint split_nl (s : str) : list str :=
  match s with
  | [] => [[]]
  | c :: s' =>
      if N.eqb c 10 then [] :: split_nl s'
      else match split_nl s' with
           | l :: ls => (c :: l) :: ls
           | [] => [[c]]
           end
  end.

(** [str.isspace] on one code point (CPython's [_PyUnicode_IsWhitespace]). *)
Definition es_espacio (c : char) : bool :=
  ((9 <=? c) && (c <=? 13)) || ((28 <=? c) && (c <=? 32))
  || (c =? 133) || (c =? 160) || (c =? 5760)
  || ((8192 <=? c) && (c <=? 8202))
  || (c =? 8232) || (c =? 8233) || (c =? 8239) || (c =? 8287)
  || (c =? 12288).

Fixpoint lstrip (s : str) : str :=
  match s with
  | [] => []
  | c :: s' => if es_espacio c then lstrip s' else s
  end.

Definition rstrip (s : str) : str := rev (lstrip (rev s)).

(** [s.strip()] *)
Definition strip (s : str) : str := rstrip (lstrip s).

(** [s.lower()] on the ASCII letters.  Unicode lower-casing of other
    letters is not modelled: no other code point lower-cases to ['.'],
    ['p'], ['d'] or ['f'], the only characters the program compares
    a lowered string with. *)
Definition lower_char (c : char) : char :=
  if (65 <=? c) && (c <=? 90) then c + 32 else c.

Definition lower (s : str) : str := map lower_char s.

(** [str(n)] for a non-negative integer. *)
Definition str_N (n : N) : str := lit (NilEmpty.string_of_uint (N.to_uint n)).

(** [str(z)] for an integer. *)
Definition str_Z (z : Z) : str := lit (NilZero.string_of_int (Z.to_int z)).

(** [s.zfill(width)]: zeros go after a leading sign. *)
Definition zfill (width : nat) (s : str) : str :=
  let ceros := repeat 48 (width - List.length s)%nat in
  match s with
  | c :: s' => if (c =? 43) || (c =? 45) then c :: ceros ++ s' else ceros ++ s
  | [] => ceros
  end.

(** [re.sub] of a pattern that is one character class: every character
    of the class is a match of length one, replaced by [repl]. *)
Fixpoint re_sub_clase (clase : list char) (repl : str) (s : str) : str :=
  match s with
  | [] => []
  | c :: s' =>
      if existsb (N.eqb c) clase then repl ++ re_sub_clase clase repl s'
      else c :: re_sub_clase clase repl s'
  end.

End PyStr.

Import PyStr.

Definition nl : str := [10%N].

(** ** Name sanitizer (app.py, 40-42) *)

(** The character class of the pattern: backslash, slash, star, question
    mark, colon, double quote (code point 34), less, greater, bar. *)
Definition clase_invalidos : list char :=
  lit "\/*?:" ++ [34%N] ++ lit "<>|".

Definition limpiar_nombre_archivo (nombre : str) : str :=
  re_sub_clase clase_invalidos [] nombre.

(** ** Document name extractor (app.py, 78-84) *)

Definition ancla : str := lit "Nombre(s) Primer apellido Segundo apellido".

(** [enumerate(l)] *)
Fixpoint enumerate_desde {A} (i : nat) (l : list A) : list (nat * A) :=
  match l with
  | [] => []
  | x :: l' => (i, x) :: enumerate_desde (S i) l'
  end.

Definition enumerate {A} (l : list A) : list (nat * A) := enumerate_desde 0 l.

(** The [for i, linea in enumerate(lineas)] loop; [pend] is what is left of
    the enumeration, [lineas] the whole list the body indexes. *)
Fixpoint bucle_lineas (lineas : list str) (pend : list (nat * str)) : option str :=
  match pend with
  | [] => None
  | (i, linea) :: resto =>
      if contiene ancla linea then
        if (0 <? i)%nat then Some (strip (nth (i - 1) lineas []))
        else bucle_lineas lineas resto
      else bucle_lineas lineas resto
  end.

(** [nombre_encontrado] after the loop, for the text of the first page. *)
Definition extraer_nombre (texto_completo : str) : option str :=
  let lineas := split_nl texto_completo in
  bucle_lineas lineas (enumerate lineas).

(** [a + '\n' + b + ...] *)
Fixpoint unir_lineas (ls : list str) : str :=
  match ls with
  | [] => []
  | [l] => l
  | l :: ls' => l ++ nl ++ unir_lineas ls'
  end.

(** The nine characters of the class, one by one. *)
Definition es_invalido (c : char) : bool :=
  ((c =? 92) || (c =? 47) || (c =? 42) || (c =? 63) || (c =? 58)
   || (c =? 34) || (c =? 60) || (c =? 62) || (c =? 124))%N.

(** The text of the specification's example, with blanks around the name. *)
Definition texto_ejemplo : str :=
  unir_lineas [lit "A"; lit " B "; ancla; lit "C"].

(** ** Exceptions and the monad of the handlers

    A computation reads and writes a state and ends with a value, with a
    raised exception, or does not end ([Diverge], for a [while] that runs out
    of fuel).  The state at the moment of the raise is kept: Python rolls
    nothing back. *)

Inductive clase_exc :=
| FileNotFoundError | OSError | AttributeError | ValueError | BadZipFile
| OtraExcepcion.

(** An exception object: its class and [str(e)]. *)
Record excepcion := { clase : clase_exc; mensaje : str }.

Inductive resultado (A : Type) :=
| Ok (a : A)
| Raise (e : excepcion)
| Diverge.

Arguments Ok {A} a.
Arguments Raise {A} e.
Arguments Diverge {A}.

Section Monada.

Variable St : Type.

Definition mon (A : Type) := St -> resultado A * St.

Definition ret {A} (a : A) : mon A := fun s => (Ok a, s).

Definition bind {A B} (m : mon A) (k : A -> mon B) : mon B :=
  fun s =>
    match m s with
    | (Ok a, s') => k a s'
    | (Raise e, s') => (Raise e, s')
    | (Diverge, s') => (Diverge, s')
    end.

Definition raise {A} (e : excepcion) : mon A := fun s => (Raise e, s).

Definition diverge {A} : mon A := fun s => (Diverge, s).

(** [try: m  except Exception as e: h e] *)
Definition try_except {A} (m : mon A) (h : excepcion -> mon A) : mon A :=
  fun s =>
    match m s with
    | (Raise e, s') => h e s'
    | r => r
    end.

Definition leer : mon St := fun s => (Ok s, s).

Definition modificar (f : St -> St) : mon unit := fun s => (Ok tt, f s).

End Monada.

Arguments ret {St A} a.
Arguments bind {St A B} m k.
Arguments raise {St A} e.
Arguments diverge {St A}.
Arguments try_except {St A} m h.
Arguments leer {St}.
Arguments modificar {St} f.

Declare Scope mon_scope.
Delimit Scope mon_scope with mon.
Notation "x <- m ;; k" := (bind m (fun x => k))
  (at level 61, m at next level, right associativity) : mon_scope.
Notation "m ;; k" := (bind m (fun _ => k))
  (at level 61, right associativity) : mon_scope.

(** ** The extraction tree

    What [os.walk] yields for a directory is its path, the names of its
    sub-directories and the names of its files; a directory is modelled by
    the last two, each name with what it stands for.  A file stands for what
    [pdfplumber] finds in it. *)

Inductive primera_pagina :=
| ExtraeFalla (e : excepcion)     (* pdf.pages[0].extract_text() raises *)
| ExtraeNone                      (* ... returns None *)
| Extrae (texto : str).           (* ... returns a string *)

Inductive lectura :=
| NoAbre (e : excepcion)          (* pdfplumber.open raises *)
| SinPaginas                      (* pdf.pages is empty *)
| ConPaginas (p : primera_pagina).

Inductive arbol :=
| Dir (archivos : list (str * lectura)) (subdirs : list (str * arbol)).

Definition archivos_de (t : arbol) : list (str * lectura) :=
  match t with Dir fs _ => fs end.

Definition subdirs_de (t : arbol) : list (str * arbol) :=
  match t with Dir _ ds => ds end.

(** ** Paths

    Every path of the model is relative to [directorio_base], whose own path
    is the empty string: [os.path.relpath(os.path.join(dirpath, name),
    directorio_base)] is [os_path_join dirpath name] on these. *)

Definition os_path_join (a b : str) : str :=
  match a with
  | [] => b
  | _ => a ++ lit "/" ++ b
  end.

(** [s.rfind(c)], none for -1. *)
Fixpoint rfind (c : char) (s : str) : option nat :=
  match s with
  | [] => None
  | x :: s' =>
      match rfind c s' with
      | Some i => Some (1 + i)
      | None => if N.eqb x c then Some 0 else None
      end
  end.

(** [os.path.splitext]: the extension starts at the last dot of the last
    component, unless only dots come before it in that component. *)
Definition splitext (p : str) : str * str :=
  let filenameIndex := match rfind 47%N p with Some i => 1 + i | None => 0 end in
  match rfind 46%N p with
  | Some dotIndex =>
      if (filenameIndex <=? dotIndex)
         && existsb (fun c => negb (N.eqb c 46%N))
                    (firstn (dotIndex - filenameIndex) (skipn filenameIndex p))
      then (firstn dotIndex p, skipn dotIndex p)
      else (p, [])
  | None => (p, [])
  end.

(** [nombre_archivo.lower().endswith('.pdf')] *)
Definition es_pdf (nombre_archivo : str) : bool :=
  endswith (lit ".pdf") (lower nombre_archivo).

(** ** State of a run of the rename engine *)

(** One event for each [print] of an outcome. *)
Inductive evento :=
| Renombrado (viejo nuevo : str)
| YaNombrado (ruta : str)
| Advertencia (msg : str)
| Error (msg : str).

Record estado := {
  archivos : list (str * lectura);     (* the files of the directory visited *)
  pdf_procesados : nat;
  renombrados_info : list str;
  advertencias_errores : list str;
  salida : list evento
}.

Definition con_archivos (fs : list (str * lectura)) (st : estado) : estado :=
  {| archivos := fs;
     pdf_procesados := pdf_procesados st;
     renombrados_info := renombrados_info st;
     advertencias_errores := advertencias_errores st;
     salida := salida st |}.

Definition contar_pdf (st : estado) : estado :=
  {| archivos := archivos st;
     pdf_procesados := 1 + pdf_procesados st;
     renombrados_info := renombrados_info st;
     advertencias_errores := advertencias_errores st;
     salida := salida st |}.

(** [print(msg); advertencias_errores.append(msg)] *)
Definition anotar_problema (ev : evento) (msg : str) (st : estado) : estado :=
  {| archivos := archivos st;
     pdf_procesados := pdf_procesados st;
     renombrados_info := renombrados_info st;
     advertencias_errores := advertencias_errores st ++ [msg];
     salida := salida st ++ [ev] |}.

(** [print(...); renombrados_info.append(ruta)] *)
Definition anotar_renombrado (ev : evento) (ruta : str) (st : estado) : estado :=
  {| archivos := archivos st;
     pdf_procesados := pdf_procesados st;
     renombrados_info := renombrados_info st ++ [ruta];
     advertencias_errores := advertencias_errores st;
     salida := salida st ++ [ev] |}.

Definition estado_inicial : estado :=
  {| archivos := []; pdf_procesados := 0; renombrados_info := [];
     advertencias_errores := []; salida := [] |}.

(** ** Messages *)

Definition msg_sin_paginas (rel : str) : str :=
  [9888; 65039]%N ++ lit " ADVERTENCIA: '" ++ rel ++ lit "' no tiene p"
  ++ [225]%N ++ lit "ginas.".

Definition msg_sin_texto (rel : str) : str :=
  [9888; 65039]%N
  ++ lit " ADVERTENCIA: No se pudo extraer texto de la primera p"
  ++ [225]%N ++ lit "gina de '" ++ rel ++ lit "'.".

Definition msg_sin_clave (rel : str) : str :=
  [10060]%N ++ lit " ERROR: No se encontr" ++ [243]%N
  ++ lit " el texto clave en '" ++ rel ++ lit "'. No se renombr"
  ++ [243]%N ++ lit ".".

Definition msg_excepcion (rel : str) (e : excepcion) : str :=
  [10060]%N ++ lit " ERROR al procesar '" ++ rel ++ lit "': " ++ mensaje e.

Definition msg_sin_pdfs : str :=
  [9888; 65039]%N
  ++ lit " ADVERTENCIA: No se encontraron archivos PDF en ninguna carpeta dentro del ZIP.".

(** ** The rename engine (app.py, 44-124) *)

Local Open Scope mon_scope.

Definition buscar (nombre : str) (fs : list (str * lectura)) : option lectura :=
  match find (fun p => eqb (fst p) nombre) fs with
  | Some p => Some (snd p)
  | None => None
  end.

(** [pdfplumber.open(ruta_completa_original)] *)
Definition pdfplumber_open (nombre_archivo : str) : mon estado lectura :=
  st <- leer ;;
  match buscar nombre_archivo (archivos st) with
  | None => raise {| clase := FileNotFoundError; mensaje := nombre_archivo |}
  | Some (NoAbre e) => raise e
  | Some l => ret l
  end.

(** [pdf.pages[0].extract_text()] *)
Definition extract_text (p : primera_pagina) : mon estado (option str) :=
  match p with
  | ExtraeFalla e => raise e
  | ExtraeNone => ret None
  | Extrae t => ret (Some t)
  end.

(** [os.path.exists] of a name in the directory visited, whose
    sub-directories are [dirnames]. *)
Definition os_path_exists (dirnames : list str) (fs : list (str * lectura))
    (nombre : str) : bool :=
  existsb (eqb nombre) (map fst fs) || existsb (eqb nombre) dirnames.

(** The [while os.path.exists(ruta_completa_nueva)] loop (96-99); the result
    is the last [nuevo_nombre_archivo]. *)
Fixpoint mientras_existe (fuel : nat) (existe : str -> bool)
    (original_base original_ext nuevo_nombre_archivo : str) (counter : N)
    : option str :=
  match fuel with
  | O => None
  | S fuel' =>
      if existe nuevo_nombre_archivo then
        mientras_existe fuel' existe original_base original_ext
          (original_base ++ lit "_" ++ str_N counter ++ original_ext)
          (counter + 1)%N
      else Some nuevo_nombre_archivo
  end.

(** The [counter]-th suffixed name the loop tries. *)
Definition candidato (original_base original_ext : str) (counter : N) : str :=
  original_base ++ lit "_" ++ str_N counter ++ original_ext.

Definition renombrar_entrada (viejo nuevo : str) (p : str * lectura)
    : str * lectura :=
  if eqb (fst p) viejo then (nuevo, snd p) else p.

(** [os.rename] inside the directory visited.  The program calls it only on
    a destination that does not exist (the loop above); names the file system
    would refuse (too long, with a NUL) are not modelled. *)
Definition os_rename (viejo nuevo : str) : mon estado unit :=
  st <- leer ;;
  match buscar viejo (archivos st) with
  | None => raise {| clase := FileNotFoundError; mensaje := viejo |}
  | Some _ =>
      modificar (fun st => con_archivos (map (renombrar_entrada viejo nuevo)
                                             (archivos st)) st)
  end.

(** Enough fuel for the loop in a directory of that many entries. *)
Definition combustible (dirnames : list str) (fs : list (str * lectura)) : nat :=
  2 + List.length fs + List.length dirnames.

(** The body of the [try] (63-111).  Both paths of the comparison of line
    92 are [dirpath] joined with a name that has no separator and is neither
    [.] nor [..], so their [os.path.abspath] are equal exactly when the names
    are. *)
Definition cuerpo_try (dirnames : list str) (dirpath nombre_archivo : str)
    : mon estado unit :=
  let relative_path_original := os_path_join dirpath nombre_archivo in
  pdf <- pdfplumber_open nombre_archivo ;;
  match pdf with
  | NoAbre e => raise e
  | SinPaginas =>
      let msg := msg_sin_paginas relative_path_original in
      modificar (anotar_problema (Advertencia msg) msg)
  | ConPaginas p =>
      texto_completo <- extract_text p ;;
      match texto_completo with
      | None | Some [] =>
          let msg := msg_sin_texto relative_path_original in
          modificar (anotar_problema (Advertencia msg) msg)
      | Some texto =>
          match extraer_nombre texto with
          | Some (c :: n) =>
              let nombre_encontrado := c :: n in
              let nombre_limpio := limpiar_nombre_archivo nombre_encontrado in
              let nuevo_nombre_archivo := nombre_limpio ++ lit ".pdf" in
              if negb (eqb nombre_archivo nuevo_nombre_archivo) then
                let '(original_base, original_ext) := splitext nuevo_nombre_archivo in
                st <- leer ;;
                match mientras_existe (combustible dirnames (archivos st))
                        (os_path_exists dirnames (archivos st))
                        original_base original_ext nuevo_nombre_archivo 1%N with
                | None => diverge
                | Some nuevo =>
                    os_rename nombre_archivo nuevo ;;
                    let ruta := os_path_join dirpath nuevo in
                    modificar (anotar_renombrado
                                 (Renombrado relative_path_original ruta) ruta)
                end
              else
                modificar (anotar_renombrado (YaNombrado relative_path_original)
                                             relative_path_original)
          | _ =>
              let msg := msg_sin_clave relative_path_original in
              modificar (anotar_problema (Error msg) msg)
          end
      end
  end.

(** One PDF of the listing: the counter, the [try] and its [except]. *)
Definition procesar_pdf (dirnames : list str) (dirpath nombre_archivo : str)
    : mon estado unit :=
  modificar contar_pdf ;;
  try_except (cuerpo_try dirnames dirpath nombre_archivo)
    (fun e =>
       let msg := msg_excepcion (os_path_join dirpath nombre_archivo) e in
       modificar (anotar_problema (Error msg) msg)).

(** [for nombre_archivo in filenames] *)
Fixpoint bucle_archivos (dirnames : list str) (dirpath : str)
    (filenames : list str) : mon estado unit :=
  match filenames with
  | [] => ret tt
  | nombre_archivo :: resto =>
      (if es_pdf nombre_archivo
       then procesar_pdf dirnames dirpath nombre_archivo
       else ret tt) ;;
      bucle_archivos dirnames dirpath resto
  end.

(** The descent of [os.walk] into the sub-directories of a directory, in the
    order of [dirnames]; [visitar] is the walk of one of them. *)
Section Bajar.

Variable visitar : str -> arbol -> mon estado arbol.

Fixpoint bajar (l : list (str * arbol)) : mon estado (list (str * arbol)) :=
  match l with
  | [] => ret []
  | (d, sub) :: l' =>
      sub' <- visitar d sub ;;
      l'' <- bajar l' ;;
      ret ((d, sub') :: l'')
  end.

End Bajar.

(** [for dirpath, _, filenames in os.walk(directorio_base)]: top-down, the
    files of a directory before its sub-directories, each directory listed
    when it is reached.  The result is the tree as the run leaves it. *)
Fixpoint recorrer (dirpath : str) (t : arbol) : mon estado arbol :=
  match t with
  | Dir fs subs =>
      modificar (con_archivos fs) ;;
      bucle_archivos (map fst subs) dirpath (map fst fs) ;;
      st <- leer ;;
      let fs' := archivos st in
      subs' <- bajar (fun d sub => recorrer (os_path_join dirpath d) sub) subs ;;
      ret (Dir fs' subs')
  end.

(** The whole function: the tree it leaves and the state with the two
    lists it returns. *)
Definition renombrar_pdfs_en_directorio (directorio_base : arbol)
    : resultado arbol * estado :=
  (t <- recorrer [] directorio_base ;;
   st <- leer ;;
   (if Nat.eqb (pdf_procesados st) 0
    then modificar (anotar_problema (Advertencia msg_sin_pdfs) msg_sin_pdfs)
    else ret tt) ;;
   ret t) estado_inicial.

(** ** Decimal rendering is injective *)
Inductive paso_pdf (dirnames : list str) (dirpath nombre_archivo : str)
    (st : estado) : estado -> Prop :=
| paso_problema (e : excepcion) :
    cuerpo_try dirnames dirpath nombre_archivo (contar_pdf st)
      = (Raise e, contar_pdf st) ->
    let msg := msg_excepcion (os_path_join dirpath nombre_archivo) e in
    paso_pdf dirnames dirpath nombre_archivo st
      (anotar_problema (Error msg) msg (contar_pdf st))
| paso_advertencia (msg : str) :
    paso_pdf dirnames dirpath nombre_archivo st
      (anotar_problema (Advertencia msg) msg (contar_pdf st))
| paso_sin_clave :
    let msg := msg_sin_clave (os_path_join dirpath nombre_archivo) in
    paso_pdf dirnames dirpath nombre_archivo st
      (anotar_problema (Error msg) msg (contar_pdf st))
| paso_ya_nombrado :
    let rel := os_path_join dirpath nombre_archivo in
    paso_pdf dirnames dirpath nombre_archivo st
      (anotar_renombrado (YaNombrado rel) rel (contar_pdf st))
| paso_renombrado (nuevo : str) :
    os_path_exists dirnames (archivos st) nuevo = false ->
    In nombre_archivo (map fst (archivos st)) ->
    let rel := os_path_join dirpath nombre_archivo in
    let ruta := os_path_join dirpath nuevo in
    paso_pdf dirnames dirpath nombre_archivo st
      (anotar_renombrado (Renombrado rel ruta) ruta
         (con_archivos (map (renombrar_entrada nombre_archivo nuevo) (archivos st))
                       (contar_pdf st))).


(** ** Measures of a tree and of a state, for the statements *)

(** The entries the run has left in its two lists. *)
Definition anotaciones (st : estado) : nat :=
  List.length (renombrados_info st) + List.length (advertencias_errores st).

Definition contar_pdf_lista (filenames : list str) : nat :=
  List.length (filter es_pdf filenames).

(** The files of the whole tree whose name passes the [.pdf] test. *)
Fixpoint contar_pdfs (t : arbol) : nat :=
  match t with
  | Dir fs subs =>
      contar_pdf_lista (map fst fs)
      + list_sum (map (fun '(_, sub) => contar_pdfs sub) subs)
  end.

(** Induction on a tree with the hypothesis on every sub-directory. *)
Fixpoint arbol_rect' (P : arbol -> Prop)
    (H : forall fs subs, Forall (fun p => P (snd p)) subs -> P (Dir fs subs))
    (t : arbol) : P t :=
  match t with
  | Dir fs subs =>
      H fs subs
        ((fix todos (l : list (str * arbol)) : Forall (fun p => P (snd p)) l :=
            match l with
            | [] => Forall_nil _
            | (d, sub) :: l' =>
                @Forall_cons _ (fun p => P (snd p)) (d, sub) l'
                  (arbol_rect' P H sub) (todos l')
            end) subs)
  end.

(** ** The second run *)

(** A file sits at its own name: it is not a PDF of the listing, or its first
    page gives a name whose sanitized form, with [.pdf], is the file's name. *)
Definition en_su_nombre (p : str * lectura) : bool :=
  negb (es_pdf (fst p))
  || match snd p with
     | ConPaginas (Extrae texto) =>
         match extraer_nombre texto with
         | Some (c :: n) => eqb (fst p) (limpiar_nombre_archivo (c :: n) ++ lit ".pdf")
         | _ => false
         end
     | _ => false
     end.

Fixpoint bien_nombrado (t : arbol) : bool :=
  match t with
  | Dir fs subs =>
      forallb en_su_nombre fs && forallb (fun '(_, sub) => bien_nombrado sub) subs
  end.



(** What a run that only finds files at their names does to the state. *)
Definition solo_ya_nombrados (st st' : estado) : Prop :=
  advertencias_errores st' = advertencias_errores st
  /\ exists rutas,
       renombrados_info st' = renombrados_info st ++ rutas
       /\ salida st' = salida st ++ map YaNombrado rutas.

(** ** Example documents and trees *)

(** A one-page document whose text is the line [nombre] and then the anchor. *)
Definition documento (nombre : string) : lectura :=
  ConPaginas (Extrae (unir_lineas [lit nombre; ancla])).


(** Three documents for the same person. *)
Definition dir_tres : arbol :=
  Dir [(lit "Juan Perez.pdf", documento "Juan Perez");
       (lit "x.pdf", documento "Juan Perez");
       (lit "y.PDF", documento "Juan Perez")] [].

(** Two documents whose name line is a question mark: the sanitized name is
    empty. *)
Definition dir_nombre_vacio : arbol :=
  Dir [(lit "a.pdf", documento "?"); (lit "b.pdf", documento "?")] [].

(** What [pdfplumber] raises on a file that is not a PDF. *)
Definition exc_roto : excepcion :=
  {| clase := OtraExcepcion; mensaje := lit "No /Root object" |}.

(** One document to rename, next to a file that is not a document, and a
    sub-directory with a document that cannot be opened. *)
Definition dir_mixto : arbol :=
  Dir [(lit "a.pdf", documento "X Y"); (lit "notes.txt", SinPaginas)]
      [(lit "sub",
        Dir [(lit "roto.pdf", NoAbre exc_roto)] [])].

(** [dir_colision] after one run and after two. *)
Definition dir_colision_1 : arbol :=
  Dir [(lit "Juan Perez.pdf", documento "Juan Perez");
       (lit "Juan Perez_1.pdf", documento "Juan Perez")] [].


(** One document to rename next to a file that is not a document, before and
    after a run. *)
Definition dir_simple : arbol :=
  Dir [(lit "a.pdf", documento "X Y"); (lit "notes.txt", SinPaginas)] [].



(** ** The rename endpoint (app.py, 191-259) *)

(** What [zipfile.ZipFile(...).extractall] does with the uploaded bytes: it
    raises [BadZipFile], raises something else, or leaves a tree in
    [extracted_dir]. *)
Inductive carga :=
| ZipCorrupto
| ZipFalla (e : excepcion)
| ZipValido (extraido : arbol).

(** [request.files['zip_file']] *)
Record subida := { filename : str; contenido : carga }.

Inductive respuesta_zip :=
| ErrorJson (status : N) (error : str)
| Adjunto (download_name : str) (entradas : list (str * lectura)).

(** The second walk (226-231): the entries [zip_out.write(full_path, arcname)]
    adds, in walk order, each with the content of the file it stores. *)
Fixpoint entradas_zip (dirpath : str) (t : arbol) : list (str * lectura) :=
  match t with
  | Dir fs subs =>
      map (fun p => (os_path_join dirpath (fst p), snd p))
          (filter (fun p => es_pdf (fst p)) fs)
      ++ flat_map (fun '(d, sub) => entradas_zip (os_path_join dirpath d) sub) subs
  end.

Definition msg_sin_zip : str :=
  lit "No se encontr" ++ [243%N] ++ lit " el archivo ZIP en la solicitud. Aseg"
  ++ [250%N] ++ lit "rate de que el nombre del campo sea 'zip_file'.".

Definition msg_no_es_zip : str := lit "El archivo cargado no es un archivo ZIP.".

Definition msg_zip_corrupto : str :=
  lit "El archivo cargado no es un archivo ZIP v" ++ [225%N] ++ lit "lido o est"
  ++ [225%N] ++ lit " corrupto.".

Definition msg_error_pdfs (e : excepcion) : str :=
  lit "Error interno del servidor al procesar los PDFs: " ++ mensaje e.

(** The handler; [None] is a request without the [zip_file] field.  The
    result is [Diverge] when the engine does not end. *)
Definition rename_pdf (zip_file : option subida) : resultado respuesta_zip :=
  match zip_file with
  | None => Ok (ErrorJson 400 msg_sin_zip)
  | Some zip_file =>
      if negb (endswith (lit ".zip") (filename zip_file))
      then Ok (ErrorJson 400 msg_no_es_zip)
      else
        match contenido zip_file with
        | ZipCorrupto => Ok (ErrorJson 400 msg_zip_corrupto)
        | ZipFalla e =>
            match clase e with
            | BadZipFile => Ok (ErrorJson 400 msg_zip_corrupto)
            | _ => Ok (ErrorJson 500 (msg_error_pdfs e))
            end
        | ZipValido extracted_dir =>
            match renombrar_pdfs_en_directorio extracted_dir with
            | (Ok renombrado, _) =>
                Ok (Adjunto (lit "renombrados.zip") (entradas_zip [] renombrado))
            | (Raise e, _) =>
                match clase e with
                | BadZipFile => Ok (ErrorJson 400 msg_zip_corrupto)
                | _ => Ok (ErrorJson 500 (msg_error_pdfs e))
                end
            | (Diverge, _) => Diverge
            end
        end
  end.

(** The file [n] with content [c] lies in the directory of path [dirpath] of
    the tree [t], whose root has path [raiz]. *)
Inductive archivo_en (raiz : str) : arbol -> str -> str -> lectura -> Prop :=
| archivo_aqui fs subs n c :
    In (n, c) fs -> archivo_en raiz (Dir fs subs) raiz n c
| archivo_abajo fs subs d sub dirpath n c :
    In (d, sub) subs ->
    archivo_en (os_path_join raiz d) sub dirpath n c ->
    archivo_en raiz (Dir fs subs) dirpath n c.

Definition subida_simple : subida :=
  {| filename := lit "docs.zip"; contenido := ZipValido dir_simple |}.

(** ** The coupon endpoint (app.py, 127-188) *)

(** The value [request.get_json()] returns.  Numbers are integers here; an
    object is the list of its items, looked up by key. *)
Inductive json :=
| JNull
| JBool (b : bool)
| JNum (n : Z)
| JStr (s : str)
| JArr (l : list json)
| JObj (kv : list (str * json)).

(** [bool(v)] *)
Definition truthy (v : json) : bool :=
  match v with
  | JNull => false
  | JBool b => b
  | JNum n => negb (Z.eqb n 0)
  | JStr s => match s with [] => false | _ => true end
  | JArr l => match l with [] => false | _ => true end
  | JObj kv => match kv with [] => false | _ => true end
  end.

(** [type(v).__name__] *)
Definition tipo (v : json) : str :=
  match v with
  | JNull => lit "NoneType"
  | JBool _ => lit "bool"
  | JNum _ => lit "int"
  | JStr _ => lit "str"
  | JArr _ => lit "list"
  | JObj _ => lit "dict"
  end.

Definition sin_atributo (v : json) (atributo : string) : excepcion :=
  {| clase := AttributeError;
     mensaje := lit "'" ++ tipo v ++ lit "' object has no attribute '"
                ++ lit atributo ++ lit "'" |}.

Fixpoint buscar_clave (k : str) (kv : list (str * json)) : option json :=
  match kv with
  | [] => None
  | (k', v) :: kv' => if eqb k' k then Some v else buscar_clave k kv'
  end.

(** [data.get(k, default)] *)
Definition dict_get {St} (data : json) (k : str) (default : json) : mon St json :=
  match data with
  | JObj kv =>
      ret (match buscar_clave k kv with Some v => v | None => default end)
  | _ => raise (sin_atributo data "get")
  end.

(** [v.strip()] *)
Definition py_strip {St} (v : json) : mon St str :=
  match v with
  | JStr s => ret (strip s)
  | _ => raise (sin_atributo v "strip")
  end.

(** [s.upper()] on the ASCII letters; other letters are left as they are
    (what is drawn is not part of any statement below). *)
Definition upper_char (c : char) : char :=
  if ((97 <=? c) && (c <=? 122))%N then (c - 32)%N else c.

(** [v.upper()] *)
Definition py_upper {St} (v : json) : mon St str :=
  match v with
  | JStr s => ret (map upper_char s)
  | _ => raise (sin_atributo v "upper")
  end.

Inductive fuente :=
| Truetype (font_size : Z)
| Predeterminada.

(** One [draw.text((x, y), texto, font=font, fill=(0, 0, 0))]. *)
Record trazo := { pos_x : Z; pos_y : Z; texto_trazo : str; fuente_trazo : fuente }.

(** The assets and the imaging library, as the handler meets them. *)
Record entorno := {
  (* Image.open(COUPON_BASE_IMAGE_PATH): the exception it raises, if any *)
  abrir_imagen : option excepcion;
  (* ImageFont.truetype(FONT_FULL_PATH, 32): the exception it raises, if any *)
  cargar_fuente : option excepcion;
  (* the draw.text calls, image.save and b64encode: the base64 text, or the
     exception one of them raises *)
  renderizar : list trazo -> excepcion + str
}.

(** [jsonify({...}), status] *)
Record respuesta := { status : N; cuerpo : list (str * str) }.

Definition msg_obligatorio : str := lit "El nombre del exalumno es obligatorio.".

Definition msg_archivo : str :=
  lit "Error del servidor: Archivo de imagen o fuente no encontrado.".

Definition msg_interno (e : excepcion) : str :=
  lit "Error interno del servidor al generar el cup" ++ [243%N] ++ lit "n: "
  ++ mensaje e.

(** [IOError] is [OSError], of which [FileNotFoundError] is a subclass. *)
Definition es_ioerror (c : clase_exc) : bool :=
  match c with
  | OSError | FileNotFoundError => true
  | _ => false
  end.

Definition levantar_si {St} (o : option excepcion) : mon St unit :=
  match o with
  | Some e => raise e
  | None => ret tt
  end.

(** The body of the [try] (138-181); the state is [current_folio]. *)
Definition cuerpo_cupon (env : entorno) (alumni_name : json) (recipient_name : str)
    : mon Z respuesta :=
  modificar (fun current_folio => current_folio + 1)%Z ;;
  current_folio <- leer ;;
  let folio_number := zfill 4 (str_Z current_folio) in
  levantar_si (abrir_imagen env) ;;
  font <- try_except
            (levantar_si (cargar_fuente env) ;; ret (Truetype 32))
            (fun e => if es_ioerror (clase e) then ret Predeterminada else raise e) ;;
  let t_folio :=
    {| pos_x := 160; pos_y := 28; texto_trazo := folio_number; fuente_trazo := font |} in
  alumni <- py_upper alumni_name ;;
  let t_alumni :=
    {| pos_x := 400; pos_y := 315; texto_trazo := alumni; fuente_trazo := font |} in
  let t_recipient :=
    match recipient_name with
    | [] => []
    | _ => [{| pos_x := 430; pos_y := 375;
               texto_trazo := map upper_char recipient_name;
               fuente_trazo := font |}]
    end in
  match renderizar env ([t_folio; t_alumni] ++ t_recipient) with
  | inl e => raise e
  | inr base64_image =>
      ret {| status := 200;
             cuerpo := [(lit "couponImage", base64_image);
                        (lit "folio", folio_number)] |}
  end.

(** The handler.  A raise of the result is an exception no [except] of the
    handler catches: the framework answers it with a 500. *)
Definition generate_coupon (env : entorno) (data : json) : mon Z respuesta :=
  alumni_name <- dict_get data (lit "alumniName") JNull ;;
  recipient <- dict_get data (lit "recipientName") (JStr []) ;;
  recipient_name <- py_strip recipient ;;
  if negb (truthy alumni_name) then
    ret {| status := 400; cuerpo := [(lit "error", msg_obligatorio)] |}
  else
    try_except (cuerpo_cupon env alumni_name recipient_name)
      (fun e =>
         match clase e with
         | FileNotFoundError =>
             ret {| status := 500; cuerpo := [(lit "error", msg_archivo)] |}
         | _ =>
             ret {| status := 500; cuerpo := [(lit "error", msg_interno e)] |}
         end).

(** The process: the requests it answers one after the other, each in the
    environment it meets, from a value of the counter. *)
Fixpoint atender (peticiones : list (entorno * json)) (current_folio : Z)
    : list (resultado respuesta) * Z :=
  match peticiones with
  | [] => ([], current_folio)
  | (env, data) :: resto =>
      let '(r, folio1) := generate_coupon env data current_folio in
      let '(rs, folio2) := atender resto folio1 in
      (r :: rs, folio2)
  end.

(** [current_folio = 36] *)
Definition folio_inicial : Z := 36.

(** ** Readings of the answers, for the statements *)

Fixpoint buscar_campo (k : str) (campos : list (str * str)) : option str :=
  match campos with
  | [] => None
  | (k', v) :: campos' => if eqb k' k then Some v else buscar_campo k campos'
  end.

(** The folio of a successful generation. *)
Definition folio_de (r : resultado respuesta) : option str :=
  match r with
  | Ok resp => if N.eqb (status resp) 200 then buscar_campo (lit "folio") (cuerpo resp)
               else None
  | _ => None
  end.

(** The folios of the successful generations of a run, in order. *)
Fixpoint folios_exitosos (rs : list (resultado respuesta)) : list str :=
  match rs with
  | [] => []
  | r :: rs' =>
      match folio_de r with
      | Some f => f :: folios_exitosos rs'
      | None => folios_exitosos rs'
      end
  end.

(** The request failed after the validation: a 500 of the handler's own. *)
Definition fallo_tardio (r : resultado respuesta) : bool :=
  match r with
  | Ok resp => N.eqb (status resp) 500
  | _ => false
  end.

(** The request passes the validation: an object whose [recipientName] is
    absent or a string and whose [alumniName] is truthy. *)
Definition pasa_validacion (data : json) : bool :=
  match data with
  | JObj kv =>
      match buscar_clave (lit "recipientName") kv with
      | None | Some (JStr _) =>
          match buscar_clave (lit "alumniName") kv with
          | Some v => truthy v
          | None => false
          end
      | _ => false
      end
  | _ => false
  end.



(** An environment in which everything is in place. *)
Definition entorno_ok : entorno :=
  {| abrir_imagen := None; cargar_fuente := None;
     renderizar := fun _ => inr (lit "/9j/4AAQ") |}.

(** The base image is missing. *)
Definition entorno_sin_imagen : entorno :=
  {| abrir_imagen := Some {| clase := FileNotFoundError;
                             mensaje := lit "No such file or directory" |};
     cargar_fuente := None;
     renderizar := fun _ => inr (lit "/9j/4AAQ") |}.

Definition peticion (alumni : string) : json :=
  JObj [(lit "alumniName", JStr (lit alumni))].

(** The four ways a request ends from the counter value [c]: an exception
    nothing catches or the 400 of the validation, the counter as it was; the
    coupon with the next folio or a 500 of the handler, the counter one
    higher. *)
Definition termina_como (c : Z) (res : resultado respuesta * Z) : Prop :=
  (exists e, res = (Raise e, c))
  \/ res = (Ok {| status := 400; cuerpo := [(lit "error", msg_obligatorio)] |}, c)
  \/ (exists base64_image,
         res = (Ok {| status := 200;
                      cuerpo := [(lit "couponImage", base64_image);
                                 (lit "folio", zfill 4 (str_Z (c + 1)))] |},
                (c + 1)%Z))
  \/ (exists msg,
         res = (Ok {| status := 500; cuerpo := [(lit "error", msg)] |}, (c + 1)%Z)).


Definition peticion_sin_nombre : json := JObj [(lit "recipientName", JStr (lit "Eva"))].

Definition peticion_recipient_nulo : json := JObj [(lit "recipientName", JNull)].

Definition peticion_numero : json := JObj [(lit "alumniName", JNum 5)].


Definition es_cadena (v : json) : bool :=
  match v with
  | JStr _ => true
  | _ => false
  end.

(** ** Well-formed trees and failing documents, for the statements *)

(** No name twice in a listing. *)
Fixpoint nombres_unicos (l : list str) : bool :=
  match l with
  | [] => true
  | n :: l' => negb (existsb (eqb n) l') && nombres_unicos l'
  end.

(** No two files of a directory share a name, in the whole tree. *)
Fixpoint bien_formado (t : arbol) : bool :=
  match t with
  | Dir fs subs =>
      nombres_unicos (map fst fs)
      && forallb (fun '(_, sub) => bien_formado sub) subs
  end.


(** The sequence the specification asks of a run from the counter value 36:
    the N-th successful generation returns [str(36 + N).zfill(4)]. *)
Definition secuencia_de_folios (peticiones : list (entorno * json)) : Prop :=
  forall (N : nat) (folio : str),
    nth_error (folios_exitosos (fst (atender peticiones folio_inicial))) N
    = Some folio ->
    folio = zfill 4 (str_Z (36 + Z.of_nat (S N))).

(** ** Further readings of a run, for the statements *)


(** The requests of a run that pass the validation. *)
Definition validadas (peticiones : list (entorno * json)) : nat :=
  List.length (filter (fun p => pasa_validacion (snd p)) peticiones).

(** An upload of that name whose bytes extract to that tree. *)
Definition subida_de (nombre : str) (t : arbol) : subida :=
  {| filename := nombre; contenido := ZipValido t |}.


(** A relation between the listings of every directory of two trees of the
    same shape. *)
Fixpoint arbol_rel (P : list (str * lectura) -> list (str * lectura) -> Prop)
    (t t' : arbol) : Prop :=
  match t, t' with
  | Dir fs subs, Dir fs' subs' =>
      P fs fs'
      /\ (fix todos (l l' : list (str * arbol)) : Prop :=
            match l, l' with
            | [], [] => True
            | (d, sub) :: l1, (d', sub') :: l1' =>
                d' = d /\ arbol_rel P sub sub' /\ todos l1 l1'
            | _, _ => False
            end) subs subs'
  end.

(** What one [os.rename] of the engine does to a listing: a name becomes a
    name that nothing in the directory bears. *)
Definition renombra_uno (dirnames : list str) (fs fs' : list (str * lectura)) : Prop :=
  fs' = fs
  \/ exists f nuevo,
       os_path_exists dirnames fs nuevo = false
       /\ fs' = map (renombrar_entrada f nuevo) fs.

(** The name the first page of a document asks for, if it gives one. *)
Definition destino (c : lectura) : option str :=
  match c with
  | ConPaginas (Extrae texto) =>
      match extraer_nombre texto with
      | Some (x :: n) => Some (limpiar_nombre_archivo (x :: n) ++ lit ".pdf")
      | _ => None
      end
  | _ => None
  end.

(** The engine has no reason to move the file: it is not a PDF of the
    listing, its first page gives no name, or it bears that name already. *)
Definition se_queda (n : str) (c : lectura) : bool :=
  negb (es_pdf n)
  || match destino c with
     | None => true
     | Some nuevo => eqb n nuevo
     end.

(** The warning or error of a document that opens and reads without an
    exception but gives no name. *)
Definition problema_de (rel : str) (c : lectura) : option str :=
  match c with
  | SinPaginas => Some (msg_sin_paginas rel)
  | ConPaginas ExtraeNone => Some (msg_sin_texto rel)
  | ConPaginas (Extrae []) => Some (msg_sin_texto rel)
  | ConPaginas (Extrae texto) =>
      match extraer_nombre texto with
      | Some (_ :: _) => None
      | _ => Some (msg_sin_clave rel)
      end
  | _ => None
  end.


(** A tree with one document of each kind that gives no name, and a
    document already at its name. *)
Definition dir_problemas : arbol :=
  Dir [(lit "vacio.pdf", SinPaginas);
       (lit "imagen.pdf", ConPaginas ExtraeNone);
       (lit "carta.pdf", ConPaginas (Extrae (lit "Estimado cliente")));
       (lit "a.pdf", documento "X Y");
       (lit "Ana.pdf", documento "Ana");
       (lit "LEEME.md", SinPaginas)]
      [(lit "sub", Dir [(lit "b.pdf", documento "X Y")] [])].

(** ** Readings of the coupon, for the statements *)

Definition con_predeterminada (t : trazo) : trazo :=
  {| pos_x := pos_x t; pos_y := pos_y t; texto_trazo := texto_trazo t;
     fuente_trazo := Predeterminada |}.

(** The environment in which the font loads and every text is drawn with the
    built-in font all the same. *)
Definition con_fuente_de_reserva (env : entorno) : entorno :=
  {| abrir_imagen := abrir_imagen env;
     cargar_fuente := None;
     renderizar := fun ts => renderizar env (map con_predeterminada ts) |}.

(** The texts of a coupon: the folio, the alumni name and, when it is not
    blank, the recipient name. *)
Definition trazos_cupon (folio_number alumni recipient_name : str) (font : fuente)
    : list trazo :=
  [{| pos_x := 160; pos_y := 28; texto_trazo := folio_number; fuente_trazo := font |};
   {| pos_x := 400; pos_y := 315; texto_trazo := map upper_char alumni;
      fuente_trazo := font |}]
  ++ match recipient_name with
     | [] => []
     | _ => [{| pos_x := 430; pos_y := 375;
                texto_trazo := map upper_char recipient_name;
                fuente_trazo := font |}]
     end.


(** The font file is missing. *)
Definition entorno_sin_fuente : entorno :=
  {| abrir_imagen := None;
     cargar_fuente := Some {| clase := OSError;
                              mensaje := lit "cannot open resource" |};
     renderizar := fun ts =>
       match ts with
       | t :: _ => match fuente_trazo t with
                   | Predeterminada => inr (lit "/9j/2wBD")
                   | Truetype _ => inr (lit "/9j/4AAQ")
                   end
       | [] => inr []
       end |}.


(** The path names a file of the tree whose root has path [raiz]. *)
Definition es_archivo_de (raiz : str) (t : arbol) (p : str) : Prop :=
  exists dirpath n c, archivo_en raiz t dirpath n c /\ p = os_path_join dirpath n.

(** The four characters are a dot and the letters p, d, f in either case. *)
Definition es_sufijo_pdf (a b c d : char) : bool :=
  (N.eqb a 46 && (N.eqb b 112 || N.eqb b 80) && (N.eqb c 100 || N.eqb c 68)
   && (N.eqb d 102 || N.eqb d 70))%N.

(** A listing state with three documents of the same person, the first at
    its name and the second at the first suffix. *)
Definition estado_colision : estado :=
  con_archivos [(lit "Juan Perez.pdf", documento "Juan Perez");
                (lit "Juan Perez_1.pdf", documento "Juan Perez");
                (lit "z.pdf", documento "Juan Perez")]
               estado_inicial.

(** * Properties *)

(** ** Strings *)

Lemma eqb_eq (a b : str) : eqb a b = true <-> a = b.
Proof.
  unfold eqb. destruct (list_eq_dec N.eq_dec a b); split; congruence.
Qed.

Lemma eqb_neq (a b : str) : eqb a b = false <-> a <> b.
Proof.
  unfold eqb. destruct (list_eq_dec N.eq_dec a b); split; congruence.
Qed.

Lemma eqb_refl (a : str) : eqb a a = true.
Proof. now apply eqb_eq. Qed.

Lemma clase_invalidos_es_invalido (c : char) :
  existsb (N.eqb c) clase_invalidos = es_invalido c.
Proof.
  unfold es_invalido. cbn. now rewrite orb_false_r, !orb_assoc.
Qed.

Lemma limpiar_filter (nombre : str) :
  limpiar_nombre_archivo nombre = filter (fun c => negb (es_invalido c)) nombre.
Proof.
  unfold limpiar_nombre_archivo.
  induction nombre as [|c s IH]; [reflexivity|].
  cbn [re_sub_clase filter]. rewrite clase_invalidos_es_invalido, IH.
  now destruct (es_invalido c).
Qed.

Lemma limpiar_sin_invalidos (nombre : str) (c : char) :
  In c (limpiar_nombre_archivo nombre) -> es_invalido c = false.
Proof.
  rewrite limpiar_filter, filter_In. intros [_ H].
  now destruct (es_invalido c).
Qed.

Example limpiar_ejemplo :
  limpiar_nombre_archivo (lit "Ju/an: P*rez?|<a>\") = lit "Juan Preza".
Proof. vm_compute. reflexivity. Qed.

(** C5. Name sanitizer: the result is the input with exactly the nine
    characters backslash, slash, star, question mark, colon, double quote,
    less, greater and bar deleted and every other character kept in its
    place and order; none of the nine is left; the function is total and
    the empty string maps to the empty string. *)
Theorem limpiar_nombre_archivo_correcto :
  forall nombre : str,
    limpiar_nombre_archivo nombre
      = filter (fun c => negb (existsb (N.eqb c) [92; 47; 42; 63; 58; 34; 60; 62; 124]%N))
               nombre
    /\ (forall c, In c (limpiar_nombre_archivo nombre) ->
                  ~ In c [92; 47; 42; 63; 58; 34; 60; 62; 124]%N)
    /\ (forall c, ~ In c [92; 47; 42; 63; 58; 34; 60; 62; 124]%N ->
                  count_occ N.eq_dec (limpiar_nombre_archivo nombre) c
                  = count_occ N.eq_dec nombre c)
    /\ limpiar_nombre_archivo [] = [].
Proof.
  intros nombre. split; [|split; [|split]].
  - rewrite limpiar_filter. apply filter_ext. intros c.
    unfold es_invalido. cbn. now rewrite orb_false_r, !orb_assoc.
  - intros c Hin Hc. apply limpiar_sin_invalidos in Hin.
    unfold es_invalido in Hin. cbn in Hc.
    repeat (destruct Hc as [<-|Hc]; [discriminate Hin|]). exact Hc.
  - intros c Hc. rewrite limpiar_filter.
    assert (Hv : es_invalido c = false).
    { unfold es_invalido. cbn in Hc.
      repeat (apply orb_false_intro); apply N.eqb_neq; intros ->; apply Hc; tauto. }
    induction nombre as [|x s IH]; [reflexivity|].
    cbn [filter]. destruct (es_invalido x) eqn:Hx; cbn [negb count_occ].
    + destruct (N.eq_dec x c) as [->|_]; [congruence|exact IH].
    + destruct (N.eq_dec x c); [f_equal|]; exact IH.
  - reflexivity.
Qed.

(** ** Extractor: properties *)


Lemma bucle_lineas_ninguno (L : list str) (l : list str) (k : nat) :
  (forall m, m < List.length l -> 0 < k + m ->
             contiene ancla (nth m l []) = false) ->
  bucle_lineas L (enumerate_desde k l) = None.
Proof.
  revert k. induction l as [|x l IH]; intros k H; [reflexivity|].
  cbn [enumerate_desde bucle_lineas].
  assert (Hl : bucle_lineas L (enumerate_desde (S k) l) = None).
  { apply IH. intros m Hm _. apply (H (S m)); cbn; lia. }
  destruct (contiene ancla x) eqn:Hx; [|exact Hl].
  destruct (0 <? k) eqn:Hk; [|exact Hl].
  apply Nat.ltb_lt in Hk.
  assert (Hx' : contiene ancla x = false) by (apply (H 0); cbn [List.length]; lia).
  congruence.
Qed.

Lemma bucle_lineas_primero (L : list str) (l : list str) (k m : nat) :
  m < List.length l -> 0 < k + m ->
  contiene ancla (nth m l []) = true ->
  (forall j, j < m -> 0 < k + j -> contiene ancla (nth j l []) = false) ->
  bucle_lineas L (enumerate_desde k l) = Some (strip (nth (k + m - 1) L [])).
Proof.
  revert k m. induction l as [|x l IH]; intros k m Hm Hpos Hhit Hbefore.
  - cbn in Hm. lia.
  - cbn [enumerate_desde bucle_lineas]. destruct m as [|m].
    + change (contiene ancla x = true) in Hhit. rewrite Hhit.
      assert (Hk : (0 <? k) = true) by (apply Nat.ltb_lt; lia).
      rewrite Hk. now rewrite Nat.add_0_r.
    + assert (Hrec : bucle_lineas L (enumerate_desde (S k) l)
                     = Some (strip (nth (k + S m - 1) L []))).
      { replace (k + S m - 1) with (S k + m - 1) by lia.
        apply IH; [cbn in Hm; lia|lia|exact Hhit|].
        intros j Hj _. apply (Hbefore (S j)); lia. }
      destruct (contiene ancla x) eqn:Hx; [|exact Hrec].
      destruct (0 <? k) eqn:Hk; [|exact Hrec].
      apply Nat.ltb_lt in Hk.
      assert (Hx' : contiene ancla x = false) by (apply (Hbefore 0); lia).
      congruence.
Qed.

(** C1. Document name extractor: with the text split into its lines, at the
    first line of index greater than zero that contains the anchor the result
    is the line just before it, stripped; when no line of index greater than
    zero contains the anchor (no anchor at all, or only in the first line) the
    result is none. *)
Theorem extraer_nombre_correcto :
  forall texto : str,
    let lineas := split_nl texto in
    (forall i, 0 < i -> i < List.length lineas ->
               contiene ancla (nth i lineas []) = true ->
               (forall j, 0 < j -> j < i -> contiene ancla (nth j lineas []) = false) ->
               extraer_nombre texto = Some (strip (nth (i - 1) lineas [])))
    /\ ((forall i, 0 < i -> i < List.length lineas ->
                   contiene ancla (nth i lineas []) = false) ->
        extraer_nombre texto = None).
Proof.
  intros texto lineas. unfold extraer_nombre, enumerate. fold lineas. split.
  - intros i Hi Hlen Hhit Hbefore.
    change (i - 1) with (0 + i - 1).
    apply bucle_lineas_primero; [exact Hlen|lia|exact Hhit|].
    intros j Hj Hpos. apply Hbefore; lia.
  - intros H. apply bucle_lineas_ninguno. intros m Hm Hpos. apply H; lia.
Qed.

Lemma extraer_nombre_correcto_witness :
  extraer_nombre texto_ejemplo = Some (lit "B")
  /\ extraer_nombre (unir_lineas [ancla; lit "C"]) = None.
Proof.
  split.
  - apply (proj1 (extraer_nombre_correcto texto_ejemplo) 2).
    + lia.
    + vm_compute. lia.
    + vm_compute. reflexivity.
    + intros j H0 H2. assert (j = 1) as -> by lia. vm_compute. reflexivity.
  - apply (proj2 (extraer_nombre_correcto (unir_lineas [ancla; lit "C"]))).
    intros i H0 Hlen. vm_compute in Hlen. assert (i = 1) as -> by lia.
    vm_compute. reflexivity.
Defined.

Example extraer_sin_ancla :
  extraer_nombre (unir_lineas [lit "A"; lit "B"; lit "C"]) = None.
Proof. vm_compute. reflexivity. Qed.

Example extraer_ancla_en_dos_lineas :
  extraer_nombre (unir_lineas [ancla; ancla; lit "Juan"]) = Some ancla.
Proof. vm_compute. reflexivity. Qed.

Lemma lit_inj (a b : string) : lit a = lit b -> a = b.
Proof.
  unfold lit. intros H.
  rewrite <- (string_of_list_ascii_of_string a), <- (string_of_list_ascii_of_string b).
  f_equal. revert H. generalize (list_ascii_of_string a) (list_ascii_of_string b).
  induction l as [|x l IH]; intros [|y l'] H; try discriminate; [reflexivity|].
  cbn in H. injection H as Hxy Hl. f_equal; [|now apply IH].
  rewrite <- (ascii_N_embedding x), <- (ascii_N_embedding y). now f_equal.
Qed.

Lemma str_N_inj (n m : N) : str_N n = str_N m -> n = m.
Proof.
  unfold str_N. intros H. apply lit_inj in H.
  apply Unsigned.to_uint_inj.
  assert (Hs : Some (N.to_uint n) = Some (N.to_uint m))
    by (rewrite <- !NilEmpty.usu; now f_equal).
  now injection Hs.
Qed.

(** ** The collision loop ends on a free name *)

Section Mientras.

Variable nombres : list str.
Variable existe : str -> bool.
Hypothesis existe_nombres : forall n, existe n = existsb (eqb n) nombres.
Variables original_base original_ext : str.

Local Abbreviation cand := (candidato original_base original_ext).

Lemma candidato_inj (j k : N) : cand j = cand k -> j = k.
Proof.
  unfold candidato. intros H.
  apply app_inv_head in H. apply app_inv_head in H.
  apply app_inv_tail in H. now apply str_N_inj.
Qed.

Lemma existe_In (n : str) : existe n = true <-> In n nombres.
Proof.
  rewrite existe_nombres, existsb_exists. split.
  - intros [x [Hin Hx]]. apply eqb_eq in Hx. now subst.
  - intros Hin. exists n. split; [exact Hin|apply eqb_refl].
Qed.

Lemma hay_candidato_libre (counter : N) :
  exists m, m <= List.length nombres
            /\ existe (cand (counter + N.of_nat m)) = false.
Proof.
  set (l := map (fun i => cand (counter + N.of_nat i))
                (seq 0 (S (List.length nombres)))).
  assert (Hnd : NoDup l).
  { apply NoDup_map_NoDup_ForallPairs; [|apply seq_NoDup].
    intros x y _ _ Hxy. apply candidato_inj in Hxy. lia. }
  destruct (existsb (fun c => negb (existe c)) l) eqn:E.
  - apply existsb_exists in E. destruct E as [x [Hin Hx]].
    apply in_map_iff in Hin. destruct Hin as [i [<- Hi]].
    apply in_seq in Hi. exists i. split; [lia|].
    now destruct (existe (cand (counter + N.of_nat i))).
  - exfalso.
    assert (Hincl : incl l nombres).
    { intros x Hx. apply existe_In. destruct (existe x) eqn:Ex; [reflexivity|].
      assert (existsb (fun c => negb (existe c)) l = true)
        by (apply existsb_exists; exists x; now rewrite Ex).
      congruence. }
    apply (NoDup_incl_length Hnd) in Hincl.
    unfold l in Hincl. rewrite length_map, length_seq in Hincl. lia.
Qed.

Lemma mientras_existe_llega (m : nat) :
  forall fuel nuevo counter,
    existe (cand (counter + N.of_nat m)) = false ->
    m + 2 <= fuel ->
    exists r, mientras_existe fuel existe original_base original_ext nuevo counter
              = Some r.
Proof.
  induction m as [|m IH]; intros fuel nuevo counter Hlibre Hfuel.
  - destruct fuel as [|[|fuel]]; try lia. cbn [mientras_existe].
    destruct (existe nuevo); [|eauto].
    rewrite N.add_0_r in Hlibre. fold (cand counter).
    rewrite Hlibre. eauto.
  - destruct fuel as [|fuel]; try lia. cbn [mientras_existe].
    destruct (existe nuevo); [|eauto].
    apply IH; [|lia].
    replace (counter + 1 + N.of_nat m)%N with (counter + N.of_nat (S m))%N by lia.
    exact Hlibre.
Qed.

(** Enough fuel gives a result. *)
Lemma mientras_existe_termina (nuevo : str) (counter : N) :
  exists r, mientras_existe (2 + List.length nombres) existe
              original_base original_ext nuevo counter = Some r.
Proof.
  destruct (hay_candidato_libre counter) as [m [Hm Hlibre]].
  apply (mientras_existe_llega m); [exact Hlibre|lia].
Qed.

(** The result is free, and it is the first free name of the sequence
    [nuevo], [candidato counter], [cand (counter + 1)], ... *)
Lemma mientras_existe_primero_libre (fuel : nat) :
  forall nuevo counter r,
    mientras_existe fuel existe original_base original_ext nuevo counter = Some r ->
    existe r = false
    /\ ((existe nuevo = false /\ r = nuevo)
        \/ (existe nuevo = true
            /\ exists m, r = cand (counter + N.of_nat m)
                         /\ forall j, j < m ->
                              existe (cand (counter + N.of_nat j)) = true)).
Proof.
  induction fuel as [|fuel IH]; intros nuevo counter r H; [discriminate|].
  cbn [mientras_existe] in H. destruct (existe nuevo) eqn:En.
  - apply IH in H. destruct H as [Hr H]. split; [exact Hr|]. right.
    split; [reflexivity|]. fold (cand counter) in H.
    destruct H as [[_ ->]|[Hc [m [-> Hm]]]].
    + exists 0. rewrite N.add_0_r. split; [reflexivity|]. intros j Hj. lia.
    + exists (S m). split.
      * f_equal. lia.
      * intros j Hj. destruct j as [|j].
        -- now rewrite N.add_0_r.
        -- replace (counter + N.of_nat (S j))%N
             with (counter + 1 + N.of_nat j)%N by lia.
           apply Hm. lia.
  - injection H as <-. split; [exact En|]. left. now split.
Qed.

End Mientras.

(** ** One file of the listing *)

Ltac desplegar :=
  unfold bind, ret, raise, diverge, try_except, leer, modificar in *;
  cbn beta iota in *.

Lemma os_path_exists_app (dirnames : list str) (fs : list (str * lectura)) (n : str) :
  os_path_exists dirnames fs n = existsb (eqb n) (map fst fs ++ dirnames).
Proof. unfold os_path_exists. now rewrite existsb_app. Qed.

Lemma mientras_en_directorio (dirnames : list str) (fs : list (str * lectura))
    (base ext nuevo : str) (counter : N) :
  exists r, mientras_existe (combustible dirnames fs) (os_path_exists dirnames fs)
              base ext nuevo counter = Some r.
Proof.
  unfold combustible.
  replace (2 + List.length fs + List.length dirnames)
    with (2 + List.length (map fst fs ++ dirnames))
    by (rewrite length_app, length_map; lia).
  apply mientras_existe_termina. apply os_path_exists_app.
Qed.

(** What the processing of one PDF leaves, by the branch taken. *)
Lemma buscar_In (n : str) (fs : list (str * lectura)) (l : lectura) :
  buscar n fs = Some l -> In (n, l) fs.
Proof.
  unfold buscar. destruct (find _ fs) as [[n' l']|] eqn:E; [|discriminate].
  intros H. injection H as <-. apply find_some in E. destruct E as [Hin Heq].
  cbn in Heq. apply eqb_eq in Heq. now subst.
Qed.

Lemma procesar_pdf_paso (dirnames : list str) (dirpath nombre_archivo : str)
    (st : estado) :
  exists st', procesar_pdf dirnames dirpath nombre_archivo st = (Ok tt, st')
              /\ paso_pdf dirnames dirpath nombre_archivo st st'.
Proof.
  unfold procesar_pdf.
  assert (Hc : archivos (contar_pdf st) = archivos st) by reflexivity.
  destruct (cuerpo_try dirnames dirpath nombre_archivo (contar_pdf st))
    as [r st1] eqn:E.
  pose proof E as E0.
  unfold cuerpo_try, pdfplumber_open, extract_text, os_rename in E. desplegar.
  rewrite E0. rewrite Hc in E.
  destruct (buscar nombre_archivo (archivos st)) as [[e| |p]|] eqn:Hb.
  - injection E as <- <-. eexists. split; [reflexivity|]. now apply paso_problema.
  - injection E as <- <-. eexists. split; [reflexivity|]. apply paso_advertencia.
  - destruct p as [e| |texto].
    + injection E as <- <-. eexists. split; [reflexivity|]. now apply paso_problema.
    + injection E as <- <-. eexists. split; [reflexivity|]. apply paso_advertencia.
    + destruct texto as [|c texto].
      { injection E as <- <-. eexists. split; [reflexivity|]. apply paso_advertencia. }
      destruct (extraer_nombre (c :: texto)) as [[|c' n]|].
      * injection E as <- <-. eexists. split; [reflexivity|]. apply paso_sin_clave.
      * destruct (negb (eqb nombre_archivo
                            (limpiar_nombre_archivo (c' :: n) ++ lit ".pdf"))).
        -- destruct (splitext (limpiar_nombre_archivo (c' :: n) ++ lit ".pdf"))
             as [base ext].
           cbn beta iota in E. rewrite Hc in E.
           destruct (mientras_en_directorio dirnames (archivos st) base ext
                       (limpiar_nombre_archivo (c' :: n) ++ lit ".pdf") 1%N)
             as [nuevo Hn].
           pose proof Hn as Hlibre.
           apply (mientras_existe_primero_libre
                    (os_path_exists dirnames (archivos st)) base ext) in Hlibre.
           destruct Hlibre as [Hlibre _].
           rewrite Hn in E. rewrite Hc, Hb in E.
           injection E as <- <-. eexists. split; [reflexivity|].
           apply paso_renombrado; [exact Hlibre|].
           apply buscar_In in Hb. apply in_map_iff. now exists (nombre_archivo, ConPaginas (Extrae (c :: texto))).
        -- injection E as <- <-. eexists. split; [reflexivity|]. apply paso_ya_nombrado.
      * injection E as <- <-. eexists. split; [reflexivity|]. apply paso_sin_clave.
  - injection E as <- <-. eexists. split; [reflexivity|]. now apply paso_problema.
Qed.


(** ** The run never aborts *)

Lemma paso_pdf_cuenta (dirnames : list str) (dirpath nombre_archivo : str)
    (st st' : estado) :
  paso_pdf dirnames dirpath nombre_archivo st st' ->
  pdf_procesados st' = 1 + pdf_procesados st
  /\ anotaciones st' = 1 + anotaciones st
  /\ List.length (salida st') = 1 + List.length (salida st).
Proof.
  intros H. destruct H; unfold anotaciones; cbn; rewrite !length_app; cbn; lia.
Qed.

Lemma bucle_archivos_ok (dirnames : list str) (dirpath : str) (filenames : list str) :
  forall st,
  exists st', bucle_archivos dirnames dirpath filenames st = (Ok tt, st')
              /\ pdf_procesados st' = pdf_procesados st + contar_pdf_lista filenames
              /\ anotaciones st' = anotaciones st + contar_pdf_lista filenames.
Proof.
  induction filenames as [|f resto IH]; intros st.
  - exists st. cbn. unfold ret, contar_pdf_lista. cbn. repeat split; lia.
  - cbn [bucle_archivos]. unfold bind at 1, contar_pdf_lista. cbn [filter].
    destruct (es_pdf f) eqn:Hf.
    + destruct (procesar_pdf_paso dirnames dirpath f st) as [st1 [E Hp]].
      rewrite E. apply paso_pdf_cuenta in Hp. destruct Hp as [Hc [Ha _]].
      destruct (IH st1) as [st' [E' [Hc' Ha']]]. exists st'.
      unfold contar_pdf_lista in *. cbn [List.length].
      repeat split; [exact E'|lia|lia].
    + unfold ret at 1. destruct (IH st) as [st' [E' [Hc' Ha']]]. exists st'.
      unfold contar_pdf_lista in *. repeat split; [exact E'|lia|lia].
Qed.

Lemma recorrer_ok (t : arbol) :
  forall dirpath st,
  exists t' st', recorrer dirpath t st = (Ok t', st')
                 /\ pdf_procesados st' = pdf_procesados st + contar_pdfs t
                 /\ anotaciones st' = anotaciones st + contar_pdfs t.
Proof.
  induction t as [fs subs IH] using arbol_rect'. intros dirpath st.
  cbn [recorrer contar_pdfs]. unfold bind at 1, modificar at 1. unfold bind at 1.
  destruct (bucle_archivos_ok (map fst subs) dirpath (map fst fs) (con_archivos fs st))
    as [st1 [E1 [Hc1 Ha1]]].
  rewrite E1. unfold bind at 1, leer at 1.
  change (pdf_procesados (con_archivos fs st)) with (pdf_procesados st) in Hc1.
  change (anotaciones (con_archivos fs st)) with (anotaciones st) in Ha1.
  assert (Hb : forall s0, exists l' s1,
             bajar (fun d sub => recorrer (os_path_join dirpath d) sub) subs s0
             = (Ok l', s1)
             /\ pdf_procesados s1
                = pdf_procesados s0 + list_sum (map (fun '(_, sub) => contar_pdfs sub) subs)
             /\ anotaciones s1
                = anotaciones s0 + list_sum (map (fun '(_, sub) => contar_pdfs sub) subs)).
  { clear E1 Hc1 Ha1. induction IH as [|[d sub] l Hsub _ IHl]; intros s0.
    - exists [], s0. cbn. unfold ret. repeat split; lia.
    - cbn [bajar map list_sum]. unfold bind at 1.
      destruct (Hsub (os_path_join dirpath d) s0) as [sub' [s1 [E [Hc Ha]]]].
      cbn [snd] in E, Hc, Ha. rewrite E. unfold bind at 1.
      destruct (IHl s1) as [l' [s2 [E' [Hc' Ha']]]]. rewrite E'.
      exists ((d, sub') :: l'), s2. unfold ret, list_sum in *. cbn [fold_right].
      repeat split; lia. }
  destruct (Hb st1) as [l' [s1 [E [Hc Ha]]]].
  unfold bind at 1. rewrite E. exists (Dir (archivos st1) l'), s1.
  unfold ret. repeat split; lia.
Qed.

Lemma renombrar_pdfs_en_directorio_ok (t : arbol) :
  exists t' st, renombrar_pdfs_en_directorio t = (Ok t', st)
                /\ pdf_procesados st = contar_pdfs t
                /\ anotaciones st
                   = contar_pdfs t + (if Nat.eqb (contar_pdfs t) 0 then 1 else 0).
Proof.
  unfold renombrar_pdfs_en_directorio.
  destruct (recorrer_ok t [] estado_inicial) as [t' [st [E [Hc Ha]]]].
  cbn in Hc, Ha. unfold bind at 1. rewrite E. unfold bind at 1, leer at 1.
  rewrite Hc. destruct (Nat.eqb (contar_pdfs t) 0) eqn:Hz.
  - exists t', (anotar_problema (Advertencia msg_sin_pdfs) msg_sin_pdfs st).
    split; [reflexivity|]. split; [exact Hc|].
    unfold anotaciones in *. cbn. rewrite length_app. cbn. lia.
  - exists t', st. split; [reflexivity|]. split; [exact Hc|]. lia.
Qed.

(** ** An exception in one file *)






(** ** Collisions *)

Example colision_juan_perez :
  exists t' st,
    renombrar_pdfs_en_directorio dir_tres = (Ok t', st)
    /\ map fst (archivos_de t')
       = [lit "Juan Perez.pdf"; lit "Juan Perez_1.pdf"; lit "Juan Perez_2.pdf"]
    /\ salida st
       = [YaNombrado (lit "Juan Perez.pdf");
          Renombrado (lit "x.pdf") (lit "Juan Perez_1.pdf");
          Renombrado (lit "y.PDF") (lit "Juan Perez_2.pdf")].
Proof. eexists. eexists. vm_compute. repeat split. Qed.

(** C2. Collision policy, at a sanitized name that is empty: of two documents
    whose name line is a question mark the first becomes [.pdf] and the second,
    colliding with it, becomes [.pdf_1]: [os.path.splitext] finds no extension
    in [.pdf], so the suffix lands after it, and the file no longer passes the
    [.pdf] test. *)
Theorem colision_sufijo_tras_extension :
  splitext (lit ".pdf") = (lit ".pdf", [])
  /\ exists t' st,
       renombrar_pdfs_en_directorio dir_nombre_vacio = (Ok t', st)
       /\ map fst (archivos_de t') = [lit ".pdf"; lit ".pdf_1"]
       /\ salida st
          = [Renombrado (lit "a.pdf") (lit ".pdf");
             Renombrado (lit "b.pdf") (lit ".pdf_1")]
       /\ es_pdf (lit ".pdf_1") = false.
Proof. split; [reflexivity|]. eexists. eexists. vm_compute. repeat split. Qed.

(** ** The second run *)

Lemma buscar_Some (n : str) (fs : list (str * lectura)) :
  In n (map fst fs) -> exists l, buscar n fs = Some l.
Proof.
  intros H. unfold buscar.
  destruct (find (fun p => eqb (fst p) n) fs) as [p|] eqn:E; [eauto|].
  apply in_map_iff in H. destruct H as [[n' l] [<- Hin]].
  apply (find_none _ _ E) in Hin. cbn in Hin. now rewrite eqb_refl in Hin.
Qed.

Lemma solo_ya_nombrados_refl (st : estado) : solo_ya_nombrados st st.
Proof.
  split; [reflexivity|]. exists []. cbn. now rewrite !app_nil_r.
Qed.

Lemma solo_ya_nombrados_trans (a b c : estado) :
  solo_ya_nombrados a b -> solo_ya_nombrados b c -> solo_ya_nombrados a c.
Proof.
  intros [Ha [r1 [Hr1 Hs1]]] [Hb [r2 [Hr2 Hs2]]]. split; [congruence|].
  exists (r1 ++ r2). rewrite Hr2, Hs2, Hr1, Hs1, map_app, <- !app_assoc.
  now split.
Qed.

Lemma procesar_pdf_en_su_nombre (dirnames : list str) (dirpath f : str)
    (st : estado) :
  forallb en_su_nombre (archivos st) = true ->
  In f (map fst (archivos st)) ->
  es_pdf f = true ->
  let rel := os_path_join dirpath f in
  procesar_pdf dirnames dirpath f st
  = (Ok tt, anotar_renombrado (YaNombrado rel) rel (contar_pdf st)).
Proof.
  intros Hall Hin Hpdf rel.
  destruct (buscar_Some _ _ Hin) as [l Hb].
  pose proof (buscar_In _ _ _ Hb) as Hl.
  rewrite forallb_forall in Hall. apply Hall in Hl.
  unfold en_su_nombre in Hl. cbn [fst snd] in Hl. rewrite Hpdf in Hl.
  cbn [negb orb] in Hl.
  destruct l as [e| |[e| |texto]]; try discriminate Hl.
  destruct (extraer_nombre texto) as [[|c n]|] eqn:Hex; try discriminate Hl.
  unfold procesar_pdf, cuerpo_try, pdfplumber_open, extract_text. desplegar.
  change (archivos (contar_pdf st)) with (archivos st). rewrite Hb.
  destruct texto as [|c0 texto]; [discriminate Hex|].
  rewrite Hex, Hl. reflexivity.
Qed.

Lemma bucle_archivos_en_su_nombre (dirnames : list str) (dirpath : str)
    (filenames : list str) :
  forall st,
    forallb en_su_nombre (archivos st) = true ->
    incl filenames (map fst (archivos st)) ->
    exists st', bucle_archivos dirnames dirpath filenames st = (Ok tt, st')
                /\ archivos st' = archivos st
                /\ solo_ya_nombrados st st'.
Proof.
  induction filenames as [|f resto IH]; intros st Hall Hincl.
  - exists st. split; [reflexivity|]. split; [reflexivity|].
    apply solo_ya_nombrados_refl.
  - assert (Hf : In f (map fst (archivos st))) by (apply Hincl; now left).
    assert (Hresto : incl resto (map fst (archivos st)))
      by (intros x Hx; apply Hincl; now right).
    cbn [bucle_archivos]. unfold bind at 1. destruct (es_pdf f) eqn:Hpdf.
    + rewrite (procesar_pdf_en_su_nombre dirnames dirpath f st Hall Hf Hpdf).
      set (st1 := anotar_renombrado _ _ _).
      destruct (IH st1 Hall Hresto) as [st' [E [Hfs Hs]]].
      exists st'. split; [exact E|]. split; [exact Hfs|].
      apply (solo_ya_nombrados_trans _ st1 _); [|exact Hs].
      split; [reflexivity|]. exists [os_path_join dirpath f]. now split.
    + unfold ret at 1. apply IH; assumption.
Qed.

Lemma recorrer_bien_nombrado (t : arbol) :
  forall dirpath st,
    bien_nombrado t = true ->
    exists st', recorrer dirpath t st = (Ok t, st')
                /\ solo_ya_nombrados st st'.
Proof.
  induction t as [fs subs IH] using arbol_rect'. intros dirpath st Hbn.
  cbn [bien_nombrado] in Hbn. apply andb_true_iff in Hbn. destruct Hbn as [Hfs Hsubs].
  cbn [recorrer]. unfold bind at 1, modificar at 1. unfold bind at 1.
  destruct (bucle_archivos_en_su_nombre (map fst subs) dirpath (map fst fs)
              (con_archivos fs st) Hfs (incl_refl _)) as [st1 [E1 [Ha1 Hs1]]].
  rewrite E1. unfold bind at 1, leer at 1. cbn [archivos con_archivos] in Ha1.
  assert (Hb : forall s0, exists s1,
             bajar (fun d sub => recorrer (os_path_join dirpath d) sub) subs s0
             = (Ok subs, s1)
             /\ solo_ya_nombrados s0 s1).
  { clear E1 Hs1 Ha1. induction IH as [|[d sub] l Hsub _ IHl]; intros s0.
    - exists s0. split; [reflexivity|apply solo_ya_nombrados_refl].
    - cbn [forallb] in Hsubs. apply andb_true_iff in Hsubs.
      destruct Hsubs as [Hsub_bn Hl].
      cbn [bajar]. unfold bind at 1. cbn [snd] in Hsub.
      destruct (Hsub (os_path_join dirpath d) s0 Hsub_bn) as [s1 [E Hs]].
      rewrite E. unfold bind at 1.
      destruct (IHl Hl s1) as [s2 [E' Hs']]. rewrite E'.
      exists s2. split; [reflexivity|].
      now apply (solo_ya_nombrados_trans _ s1 _). }
  destruct (Hb st1) as [s1 [E Hs]].
  unfold bind at 1. rewrite E. exists s1. unfold ret. rewrite Ha1.
  split; [reflexivity|].
  apply (solo_ya_nombrados_trans _ st1 _); [|exact Hs].
  destruct Hs1 as [Hadv Hr]. split; [exact Hadv|exact Hr].
Qed.


Example segunda_corrida_eventos :
  salida (snd (renombrar_pdfs_en_directorio dir_colision_1))
  = [YaNombrado (lit "Juan Perez.pdf");
     Renombrado (lit "Juan Perez_1.pdf") (lit "Juan Perez_2.pdf")].
Proof. vm_compute. reflexivity. Qed.



(** ** The output archive *)





Example archivo_ida_y_vuelta :
  rename_pdf (Some subida_simple)
  = Ok (Adjunto (lit "renombrados.zip") [(lit "X Y.pdf", documento "X Y")]).
Proof. vm_compute. reflexivity. Qed.

(** ** The coupon endpoint *)

(** The [try] body ends with the counter one higher, whatever its result. *)
Lemma cuerpo_cupon_casos (env : entorno) (alumni_name : json)
    (recipient_name : str) (c : Z) :
  (exists base64_image,
      cuerpo_cupon env alumni_name recipient_name c
      = (Ok {| status := 200;
               cuerpo := [(lit "couponImage", base64_image);
                          (lit "folio", zfill 4 (str_Z (c + 1)))] |},
         (c + 1)%Z))
  \/ (exists e,
         cuerpo_cupon env alumni_name recipient_name c = (Raise e, (c + 1)%Z)).
Proof.
  unfold cuerpo_cupon, levantar_si, py_upper. desplegar.
  destruct (abrir_imagen env) as [e|]; [right; eauto|].
  destruct (cargar_fuente env) as [e|].
  - destruct (es_ioerror (clase e)); [|right; eauto].
    destruct alumni_name; try (right; eauto; fail).
    destruct (renderizar env _); [right|left]; eauto.
  - destruct alumni_name; try (right; eauto; fail).
    destruct (renderizar env _); [right|left]; eauto.
Qed.

(** The handler on an object, step by step. *)
Lemma generate_coupon_objeto (env : entorno) (kv : list (str * json)) (c : Z) :
  generate_coupon env (JObj kv) c
  = let alumni_name := match buscar_clave (lit "alumniName") kv with
                       | Some v => v | None => JNull end in
    match buscar_clave (lit "recipientName") kv with
    | None | Some (JStr _) =>
        let recipient_name :=
          match buscar_clave (lit "recipientName") kv with
          | Some (JStr s) => strip s
          | _ => strip []
          end in
        if truthy alumni_name then
          match cuerpo_cupon env alumni_name recipient_name c with
          | (Raise e, c') =>
              (Ok {| status := 500;
                     cuerpo := [(lit "error",
                                 match clase e with
                                 | FileNotFoundError => msg_archivo
                                 | _ => msg_interno e
                                 end)] |}, c')
          | r => r
          end
        else (Ok {| status := 400; cuerpo := [(lit "error", msg_obligatorio)] |}, c)
    | Some v => (Raise (sin_atributo v "strip"), c)
    end.
Proof.
  unfold generate_coupon, dict_get, py_strip. desplegar.
  destruct (buscar_clave (lit "recipientName") kv) as [[| | |s| |]|];
    try reflexivity.
  - destruct (truthy _); cbn [negb]; [|reflexivity].
    destruct (cuerpo_cupon env _ (strip s) c) as [[r|e|] c']; try reflexivity.
    now destruct (clase e).
  - destruct (truthy _); cbn [negb]; [|reflexivity].
    destruct (cuerpo_cupon env _ (strip []) c) as [[r|e|] c']; try reflexivity.
    now destruct (clase e).
Qed.

Lemma generate_coupon_casos (env : entorno) (data : json) (c : Z) :
  termina_como c (generate_coupon env data c).
Proof.
  destruct data as [| | | | |kv]; try (left; eexists; reflexivity).
  rewrite generate_coupon_objeto. cbn zeta.
  set (alumni_name := match buscar_clave (lit "alumniName") kv with
                      | Some v => v | None => JNull end).
  set (recipient_name := match buscar_clave (lit "recipientName") kv with
                         | Some (JStr s) => strip s | _ => strip [] end).
  set (res := if truthy alumni_name then _ else _).
  assert (H : termina_como c res).
  { unfold res. destruct (truthy alumni_name); [|right; left; reflexivity].
    destruct (cuerpo_cupon_casos env alumni_name recipient_name c)
      as [[b E]|[e E]]; rewrite E.
    - right; right; left. exists b. reflexivity.
    - right; right; right. eexists. reflexivity. }
  destruct (buscar_clave (lit "recipientName") kv) as [[| | |s| |]|];
    try (left; eexists; reflexivity); exact H.
Qed.

Lemma atender_cons (env : entorno) (data : json) (resto : list (entorno * json))
    (c : Z) :
  atender ((env, data) :: resto) c
  = (fst (generate_coupon env data c)
       :: fst (atender resto (snd (generate_coupon env data c))),
     snd (atender resto (snd (generate_coupon env data c)))).
Proof.
  cbn [atender]. destruct (generate_coupon env data c) as [r c1]. cbn [fst snd].
  now destruct (atender resto c1).
Qed.

Lemma atender_folios (peticiones : list (entorno * json)) :
  forall (c : Z) (N : nat) (folio : str),
    forallb (fun r => negb (fallo_tardio r)) (fst (atender peticiones c)) = true ->
    nth_error (folios_exitosos (fst (atender peticiones c))) N = Some folio ->
    folio = zfill 4 (str_Z (c + Z.of_nat (S N))).
Proof.
  induction peticiones as [|[env data] resto IH]; intros c N folio Hsin Hnth.
  - cbn in Hnth. destruct N; discriminate Hnth.
  - rewrite atender_cons in Hsin, Hnth. cbn [fst forallb folios_exitosos] in Hsin, Hnth.
    apply andb_true_iff in Hsin. destruct Hsin as [Hr Hresto].
    pose proof (generate_coupon_casos env data c) as Hc. unfold termina_como in Hc.
    destruct Hc as [[e E]|[E|[[b E]|[msg E]]]];
      rewrite E in Hr, Hresto, Hnth; cbn [fst snd] in Hr, Hresto, Hnth.
    + cbn [folio_de] in Hnth. now apply IH.
    + cbn in Hnth. now apply IH.
    + change (folio_de _) with (Some (zfill 4 (str_Z (c + 1)))) in Hnth.
      destruct N as [|N].
      * cbn in Hnth. injection Hnth as <-. reflexivity.
      * cbn [nth_error] in Hnth. rewrite (IH _ _ _ Hresto Hnth).
        do 2 f_equal. lia.
    + discriminate Hr.
Qed.

Lemma folio_cuatro_digitos_hasta (n : nat) :
  forallb (fun k => let f := zfill 4 (str_Z (Z.of_nat k)) in
                    Nat.eqb (List.length f) 4
                    && forallb (fun ch => (48 <=? ch)%N && (ch <=? 57)%N) f)
          (seq 0 n) = true ->
  forall z : Z,
    (0 <= z < Z.of_nat n)%Z ->
    List.length (zfill 4 (str_Z z)) = 4
    /\ forallb (fun ch => (48 <=? ch)%N && (ch <=? 57)%N) (zfill 4 (str_Z z)) = true.
Proof.
  intros H z Hz. rewrite forallb_forall in H.
  specialize (H (Z.to_nat z)). rewrite Z2Nat.id in H by lia.
  assert (Hin : In (Z.to_nat z) (seq 0 n)) by (apply in_seq; lia).
  apply H in Hin. cbn zeta in Hin. apply andb_true_iff in Hin.
  destruct Hin as [Hl Hd]. apply Nat.eqb_eq in Hl. now split.
Qed.

Lemma folio_cuatro_digitos (z : Z) :
  (0 <= z < 10000)%Z ->
  List.length (zfill 4 (str_Z z)) = 4
  /\ forallb (fun ch => (48 <=? ch)%N && (ch <=? 57)%N) (zfill 4 (str_Z z)) = true.
Proof.
  intros Hz. apply (folio_cuatro_digitos_hasta 10000); [|exact Hz].
  vm_compute. reflexivity.
Qed.

(** C6, as the specification states it, fails: a request whose [alumniName]
    is the number 5 passes the validation, spends the folio 0037 and fails at
    [alumni_name.upper()] with a 500; the first successful generation of the
    run then returns 0038. *)
Lemma folio_tras_fallo_tardio_salta :
  ~ secuencia_de_folios [(entorno_ok, peticion_numero); (entorno_ok, peticion "Ana")].
Proof.
  intros H. specialize (H 0 (lit "0038")). vm_compute in H.
  specialize (H eq_refl). discriminate H.
Qed.

(** C6, amended.  In a run of requests from the counter value 36 in which no
    request fails after the validation, the successful generations return, in
    order, [str(36 + N).zfill(4)] for N = 1, 2, ...: requests rejected by the
    validation in between do not count.  The first call, when it succeeds,
    returns [0037] and leaves the counter at 37; and up to 9999 the folio is
    four decimal digits. *)
Theorem folio_secuencia :
  (forall (peticiones : list (entorno * json)) (N : nat) (folio : str),
      let rs := fst (atender peticiones folio_inicial) in
      forallb (fun r => negb (fallo_tardio r)) rs = true ->
      nth_error (folios_exitosos rs) N = Some folio ->
      folio = zfill 4 (str_Z (36 + Z.of_nat (S N))))
  /\ (forall (env : entorno) (data : json) (r : respuesta) (c : Z),
        generate_coupon env data folio_inicial = (Ok r, c) ->
        status r = 200%N ->
        buscar_campo (lit "folio") (cuerpo r) = Some (lit "0037") /\ c = 37%Z)
  /\ (forall N : nat,
        (36 + Z.of_nat (S N) < 10000)%Z ->
        List.length (zfill 4 (str_Z (36 + Z.of_nat (S N)))) = 4
        /\ forallb (fun ch => (48 <=? ch)%N && (ch <=? 57)%N)
                   (zfill 4 (str_Z (36 + Z.of_nat (S N)))) = true).
Proof.
  split; [|split].
  - intros peticiones N folio rs Hsin Hnth.
    exact (atender_folios peticiones folio_inicial N folio Hsin Hnth).
  - intros env data r c E Hst.
    pose proof (generate_coupon_casos env data folio_inicial) as Hc.
    unfold termina_como in Hc. rewrite E in Hc.
    destruct Hc as [[e H]|[H|[[b H]|[msg H]]]]; try discriminate H;
      injection H as -> ->; try discriminate Hst.
    split; reflexivity.
  - intros N HN. apply folio_cuatro_digitos. lia.
Qed.

Lemma folio_secuencia_witness :
  nth_error
    (folios_exitosos
       (fst (atender [(entorno_ok, peticion "Ana");
                      (entorno_ok, peticion_sin_nombre);
                      (entorno_ok, peticion "Luis")] folio_inicial))) 1
  = Some (lit "0038")
  /\ lit "0038" = zfill 4 (str_Z (36 + Z.of_nat 2)).
Proof.
  split; [vm_compute; reflexivity|].
  apply (proj1 folio_secuencia
           [(entorno_ok, peticion "Ana"); (entorno_ok, peticion_sin_nombre);
            (entorno_ok, peticion "Luis")] 1 (lit "0038")).
  - vm_compute. reflexivity.
  - vm_compute. reflexivity.
Defined.

(** C7. Folio consumed on later failure.  A request that passes the
    validation leaves the counter one higher whatever its result; when the
    base image cannot be opened the answer is a 500 and the folio is spent
    all the same. *)
Theorem folio_consumido_aunque_falle :
  forall (env : entorno) (data : json) (c : Z),
    pasa_validacion data = true ->
    snd (generate_coupon env data c) = (c + 1)%Z
    /\ (forall e, abrir_imagen env = Some e ->
          generate_coupon env data c
          = (Ok {| status := 500;
                   cuerpo := [(lit "error",
                               match clase e with
                               | FileNotFoundError => msg_archivo
                               | _ => msg_interno e
                               end)] |},
             (c + 1)%Z)).
Proof.
  intros env data c Hval. unfold pasa_validacion in Hval.
  destruct data as [| | | | |kv]; try discriminate Hval.
  rewrite generate_coupon_objeto. cbn zeta.
  destruct (buscar_clave (lit "alumniName") kv) as [alumni|]; [|
    destruct (buscar_clave (lit "recipientName") kv) as [[| | |s| |]|];
    discriminate Hval].
  assert (Hal : truthy alumni = true)
    by (destruct (buscar_clave (lit "recipientName") kv) as [[| | |s| |]|];
        try discriminate Hval; exact Hval).
  set (recipient_name := match buscar_clave (lit "recipientName") kv with
                         | Some (JStr s) => strip s | _ => strip [] end).
  assert (H : snd (match cuerpo_cupon env alumni recipient_name c with
                   | (Raise e, c') =>
                       (Ok {| status := 500;
                              cuerpo := [(lit "error",
                                          match clase e with
                                          | FileNotFoundError => msg_archivo
                                          | _ => msg_interno e
                                          end)] |}, c')
                   | r => r
                   end) = (c + 1)%Z
              /\ (forall e, abrir_imagen env = Some e ->
                    match cuerpo_cupon env alumni recipient_name c with
                    | (Raise e, c') =>
                        (Ok {| status := 500;
                               cuerpo := [(lit "error",
                                           match clase e with
                                           | FileNotFoundError => msg_archivo
                                           | _ => msg_interno e
                                           end)] |}, c')
                    | r => r
                    end
                    = (Ok {| status := 500;
                             cuerpo := [(lit "error",
                                         match clase e with
                                         | FileNotFoundError => msg_archivo
                                         | _ => msg_interno e
                                         end)] |},
                       (c + 1)%Z))).
  { split.
    - destruct (cuerpo_cupon_casos env alumni recipient_name c) as [[b E]|[e E]];
        rewrite E; reflexivity.
    - intros e He. unfold cuerpo_cupon, levantar_si. desplegar. rewrite He.
      reflexivity. }
  rewrite Hal.
  destruct (buscar_clave (lit "recipientName") kv) as [[| | |s| |]|];
    try discriminate Hval; exact H.
Qed.

Lemma folio_consumido_aunque_falle_witness :
  snd (generate_coupon entorno_sin_imagen (peticion "Ana") 36%Z) = 37%Z
  /\ generate_coupon entorno_sin_imagen (peticion "Ana") 36%Z
     = (Ok {| status := 500; cuerpo := [(lit "error", msg_archivo)] |}, 37%Z).
Proof.
  destruct (folio_consumido_aunque_falle entorno_sin_imagen (peticion "Ana") 36%Z)
    as [H1 H2].
  - vm_compute. reflexivity.
  - split; [exact H1|].
    exact (H2 {| clase := FileNotFoundError;
                 mensaje := lit "No such file or directory" |} eq_refl).
Defined.

(** C10. A [recipientName] that is not a string.  For every object that
    carries [recipientName] with a value other than a string (null, a number,
    a boolean, a list, an object) the handler raises [AttributeError] at the
    [strip] of its third line, outside the [try]: nothing of the handler
    catches it, the validation of [alumniName] is never reached, whatever
    [alumniName] is, and the counter is as it was. *)
Theorem recipient_no_cadena_sin_manejar :
  forall (env : entorno) (kv : list (str * json)) (v : json) (c : Z),
    buscar_clave (lit "recipientName") kv = Some v ->
    es_cadena v = false ->
    generate_coupon env (JObj kv) c = (Raise (sin_atributo v "strip"), c).
Proof.
  intros env kv v c Hv Hs. rewrite generate_coupon_objeto. cbn zeta.
  rewrite Hv. destruct v; try reflexivity. discriminate Hs.
Qed.

Lemma recipient_no_cadena_sin_manejar_witness :
  generate_coupon entorno_ok peticion_recipient_nulo 36%Z
  = (Raise {| clase := AttributeError;
              mensaje := lit "'NoneType' object has no attribute 'strip'" |}, 36%Z).
Proof.
  apply (recipient_no_cadena_sin_manejar entorno_ok
           [(lit "recipientName", JNull)] JNull 36%Z).
  - vm_compute. reflexivity.
  - vm_compute. reflexivity.
Defined.




Example folio_tras_fallo_tardio :
  folios_exitosos
    (fst (atender [(entorno_ok, peticion_numero); (entorno_ok, peticion "Ana")]
                  folio_inicial))
  = [lit "0038"].
Proof. vm_compute. reflexivity. Qed.

(** ** Collisions at a name with an extension *)






(** ** Every failing document of a tree is reported *)

Lemma nombres_unicos_NoDup (l : list str) : nombres_unicos l = true -> NoDup l.
Proof.
  induction l as [|n l IH]; intros H; [constructor|].
  cbn [nombres_unicos] in H. apply andb_true_iff in H. destruct H as [Hn Hl].
  constructor; [|now apply IH].
  intros Hin. apply negb_true_iff in Hn.
  assert (existsb (eqb n) l = true)
    by (apply existsb_exists; exists n; split; [exact Hin|apply eqb_refl]).
  congruence.
Qed.

Lemma In_buscar (fs : list (str * lectura)) (n : str) (c : lectura) :
  NoDup (map fst fs) -> In (n, c) fs -> buscar n fs = Some c.
Proof.
  unfold buscar. induction fs as [|[n' c'] fs IH]; intros Hnd Hin; [destruct Hin|].
  cbn [map fst] in Hnd. inversion Hnd as [|? ? Hnotin Hnd']; subst.
  cbn [find fst]. destruct Hin as [Heq|Hin].
  - injection Heq as -> ->. now rewrite eqb_refl.
  - destruct (eqb n' n) eqn:E.
    + apply eqb_eq in E. subst n'. exfalso. apply Hnotin.
      apply in_map_iff. now exists (n, c).
    + now apply IH.
Qed.

Lemma buscar_renombrar (fs : list (str * lectura)) (g f nuevo : str) :
  g <> f -> g <> nuevo ->
  buscar g (map (renombrar_entrada f nuevo) fs) = buscar g fs.
Proof.
  intros Hf Hn. unfold buscar. induction fs as [|[a l] fs IH]; [reflexivity|].
  cbn [map find].
  replace (renombrar_entrada f nuevo (a, l))
    with (if eqb a f then (nuevo, l) else (a, l)) by reflexivity.
  destruct (eqb a f) eqn:Ea.
  - apply eqb_eq in Ea. subst a. cbn [fst].
    assert (E1 : eqb nuevo g = false) by (apply eqb_neq; congruence).
    assert (E2 : eqb f g = false) by (apply eqb_neq; congruence).
    rewrite E1, E2. exact IH.
  - cbn [fst]. destruct (eqb a g); [reflexivity|exact IH].
Qed.

Lemma buscar_existe (dirnames : list str) (fs : list (str * lectura)) (g : str)
    (l : lectura) :
  buscar g fs = Some l -> os_path_exists dirnames fs g = true.
Proof.
  intros H. apply buscar_In in H. unfold os_path_exists.
  apply orb_true_iff. left. apply existsb_exists. exists g.
  split; [|apply eqb_refl]. apply in_map_iff. now exists (g, l).
Qed.

(** The processing of one file leaves the other files of the listing as
    they are, and keeps what the issues list holds. *)
Lemma paso_pdf_conserva (dirnames : list str) (dirpath f : str) (st st' : estado) :
  paso_pdf dirnames dirpath f st st' ->
  incl (advertencias_errores st) (advertencias_errores st')
  /\ forall g l, g <> f -> buscar g (archivos st) = Some l ->
                 buscar g (archivos st') = Some l.
Proof.
  intros H. destruct H; cbn; split;
    try (apply incl_appl, incl_refl); try apply incl_refl; try (intros; assumption).
  intros g l Hg Hb. rewrite buscar_renombrar; [exact Hb|exact Hg|].
  intros ->. apply (buscar_existe dirnames) in Hb. congruence.
Qed.

Lemma bucle_archivos_conserva (dirnames : list str) (dirpath : str)
    (filenames : list str) :
  forall st st' u,
    bucle_archivos dirnames dirpath filenames st = (Ok u, st') ->
    incl (advertencias_errores st) (advertencias_errores st').
Proof.
  induction filenames as [|f resto IH]; intros st st' u H.
  - cbn in H. unfold ret in H. injection H as _ <-. apply incl_refl.
  - cbn [bucle_archivos] in H. unfold bind at 1 in H. destruct (es_pdf f).
    + destruct (procesar_pdf_paso dirnames dirpath f st) as [st1 [E Hp]].
      rewrite E in H. apply paso_pdf_conserva in Hp. destruct Hp as [Hi _].
      apply IH in H. now apply (incl_tran Hi).
    + unfold ret at 1 in H. now apply IH in H.
Qed.



Lemma recorrer_conserva (t : arbol) :
  forall dirpath st,
  exists t' st', recorrer dirpath t st = (Ok t', st')
                 /\ incl (advertencias_errores st) (advertencias_errores st').
Proof.
  induction t as [fs subs IH] using arbol_rect'. intros dirpath st.
  cbn [recorrer]. unfold bind at 1, modificar at 1. unfold bind at 1.
  destruct (bucle_archivos_ok (map fst subs) dirpath (map fst fs) (con_archivos fs st))
    as [st1 [E1 _]].
  rewrite E1. unfold bind at 1, leer at 1.
  apply bucle_archivos_conserva in E1. cbn [advertencias_errores con_archivos] in E1.
  assert (Hb : forall s0, exists l' s1,
             bajar (fun d sub => recorrer (os_path_join dirpath d) sub) subs s0
             = (Ok l', s1)
             /\ incl (advertencias_errores s0) (advertencias_errores s1)).
  { clear E1. induction IH as [|[d sub] l Hsub _ IHl]; intros s0.
    - exists [], s0. split; [reflexivity|apply incl_refl].
    - cbn [bajar]. unfold bind at 1. cbn [snd] in Hsub.
      destruct (Hsub (os_path_join dirpath d) s0) as [sub' [s1 [E Hi]]].
      rewrite E. unfold bind at 1.
      destruct (IHl s1) as [l' [s2 [E' Hi']]]. rewrite E'.
      exists ((d, sub') :: l'), s2. split; [reflexivity|].
      now apply (incl_tran Hi). }
  destruct (Hb st1) as [l' [s1 [E Hi]]].
  unfold bind at 1. rewrite E. exists (Dir (archivos st1) l'), s1.
  split; [reflexivity|]. now apply (incl_tran E1).
Qed.

Lemma bajar_conserva (dirpath : str) (subs : list (str * arbol)) :
  forall st,
  exists l' st',
    bajar (fun d sub => recorrer (os_path_join dirpath d) sub) subs st = (Ok l', st')
    /\ incl (advertencias_errores st) (advertencias_errores st').
Proof.
  induction subs as [|[d sub] l IH]; intros st.
  - exists [], st. split; [reflexivity|apply incl_refl].
  - cbn [bajar]. unfold bind at 1.
    destruct (recorrer_conserva sub (os_path_join dirpath d) st) as [sub' [s1 [E Hi]]].
    rewrite E. unfold bind at 1. destruct (IH s1) as [l' [s2 [E' Hi']]].
    rewrite E'. exists ((d, sub') :: l'), s2. split; [reflexivity|].
    now apply (incl_tran Hi).
Qed.

Lemma bajar_excepcion (dirpath : str) (subs : list (str * arbol)) (d : str)
    (sub : arbol) (msg : str) :
  In (d, sub) subs ->
  (forall st, exists t' st',
      recorrer (os_path_join dirpath d) sub st = (Ok t', st')
      /\ In msg (advertencias_errores st')) ->
  forall st,
  exists l' st',
    bajar (fun d sub => recorrer (os_path_join dirpath d) sub) subs st = (Ok l', st')
    /\ In msg (advertencias_errores st').
Proof.
  intros Hin Hsub. induction subs as [|[d0 sub0] l IH]; intros st; [destruct Hin|].
  cbn [bajar]. unfold bind at 1. destruct Hin as [Heq|Hin].
  - injection Heq as -> ->.
    destruct (Hsub st) as [sub' [s1 [E Hm]]]. rewrite E. unfold bind at 1.
    destruct (bajar_conserva dirpath l s1) as [l' [s2 [E' Hi]]]. rewrite E'.
    exists ((d, sub') :: l'), s2. split; [reflexivity|]. now apply Hi.
  - destruct (recorrer_conserva sub0 (os_path_join dirpath d0) st)
      as [sub' [s1 [E _]]].
    rewrite E. unfold bind at 1.
    destruct (IH Hin s1) as [l' [s2 [E' Hm]]]. rewrite E'.
    exists ((d0, sub') :: l'), s2. now split.
Qed.




Example fallo_no_detiene_la_corrida :
  exists t' st,
    renombrar_pdfs_en_directorio dir_mixto = (Ok t', st)
    /\ renombrados_info st = [lit "X Y.pdf"]
    /\ advertencias_errores st
       = [msg_excepcion (lit "sub/roto.pdf") exc_roto].
Proof. eexists. eexists. vm_compute. repeat split. Qed.

(** * Further properties of the code *)

(** ** The sanitizer composes *)

(** X1. Sanitizing a name twice is sanitizing it once; a name is left as it
    is exactly when it holds none of the nine characters; the result is never
    longer than the name; and sanitizing a concatenation is concatenating the
    sanitized parts. *)
Theorem limpiar_nombre_archivo_compone :
  forall a b : str,
    limpiar_nombre_archivo (limpiar_nombre_archivo a) = limpiar_nombre_archivo a
    /\ (limpiar_nombre_archivo a = a <-> existsb es_invalido a = false)
    /\ List.length (limpiar_nombre_archivo a) <= List.length a
    /\ limpiar_nombre_archivo (a ++ b)
       = limpiar_nombre_archivo a ++ limpiar_nombre_archivo b.
Proof.
  intros a b. rewrite !limpiar_filter. split; [|split; [|split]].
  - induction a as [|c a IH]; [reflexivity|]. cbn [filter].
    destruct (es_invalido c) eqn:Hc; cbn [negb]; [exact IH|].
    cbn [filter]. rewrite Hc. cbn [negb]. now f_equal.
  - split.
    + intros H. destruct (existsb es_invalido a) eqn:E; [|reflexivity].
      apply existsb_exists in E. destruct E as [c [Hin Hc]].
      rewrite <- H in Hin. apply filter_In in Hin. destruct Hin as [_ Hn].
      rewrite Hc in Hn. discriminate Hn.
    + induction a as [|c a IH]; intros H; [reflexivity|].
      cbn [existsb] in H. apply orb_false_iff in H. destruct H as [Hc Ha].
      cbn [filter]. rewrite Hc. cbn [negb]. f_equal. now apply IH.
  - apply filter_length_le.
  - apply filter_app.
Qed.

(** ** A tree without documents *)

Lemma list_sum_cero (l : list nat) :
  list_sum l = 0 -> Forall (fun n => n = 0) l.
Proof.
  unfold list_sum. induction l as [|n l IH]; intros H; [constructor|].
  cbn [fold_right] in H. constructor; [lia|apply IH; lia].
Qed.

Lemma sin_pdfs_en_su_nombre (fs : list (str * lectura)) :
  contar_pdf_lista (map fst fs) = 0 -> forallb en_su_nombre fs = true.
Proof.
  unfold contar_pdf_lista. induction fs as [|[n c] fs IH]; intros H; [reflexivity|].
  cbn [map fst filter] in H. cbn [forallb]. unfold en_su_nombre at 1. cbn [fst].
  destruct (es_pdf n); [discriminate H|]. cbn [negb orb andb]. now apply IH.
Qed.

Lemma sin_pdfs_bien_nombrado (t : arbol) :
  contar_pdfs t = 0 -> bien_nombrado t = true.
Proof.
  induction t as [fs subs IH] using arbol_rect'. intros H.
  cbn [contar_pdfs] in H. cbn [bien_nombrado].
  assert (Hfs : contar_pdf_lista (map fst fs) = 0) by lia.
  assert (Hsubs : list_sum (map (fun '(_, sub) => contar_pdfs sub) subs) = 0) by lia.
  rewrite (sin_pdfs_en_su_nombre fs Hfs). cbn [andb].
  apply list_sum_cero in Hsubs. clear H Hfs.
  induction IH as [|[d sub] l Hsub _ IHl]; [reflexivity|].
  cbn [map] in Hsubs. inversion Hsubs as [|? ? H0 Hl]; subst.
  cbn [forallb]. cbn [snd] in Hsub. rewrite (Hsub H0). now apply IHl.
Qed.

Lemma entradas_zip_sin_pdfs (t : arbol) :
  forall dirpath, contar_pdfs t = 0 -> entradas_zip dirpath t = [].
Proof.
  induction t as [fs subs IH] using arbol_rect'. intros dirpath H.
  cbn [contar_pdfs] in H. cbn [entradas_zip].
  assert (Hfs : contar_pdf_lista (map fst fs) = 0) by lia.
  assert (Hsubs : list_sum (map (fun '(_, sub) => contar_pdfs sub) subs) = 0) by lia.
  assert (Hf : filter (fun p => es_pdf (fst p)) fs = []).
  { clear - Hfs. unfold contar_pdf_lista in Hfs.
    induction fs as [|[n c] fs IHfs]; [reflexivity|].
    cbn [map fst filter] in *. destruct (es_pdf n); [discriminate Hfs|].
    now apply IHfs. }
  rewrite Hf. cbn [map app].
  apply list_sum_cero in Hsubs. clear H Hfs Hf.
  induction IH as [|[d sub] l Hsub _ IHl]; [reflexivity|].
  cbn [map] in Hsubs. inversion Hsubs as [|? ? H0 Hl]; subst.
  cbn [flat_map]. cbn [snd] in Hsub. rewrite (Hsub _ H0). now apply IHl.
Qed.

(** X2. A tree without any file named [.pdf] (in any case): the run leaves the
    tree as it is, returns an empty list of renamed files and exactly one
    issue, the warning that no PDF was found; and the endpoint answers such an
    upload with an archive without entries. *)
Theorem arbol_sin_pdfs :
  forall (t : arbol) (nombre : str),
    contar_pdfs t = 0 ->
    (exists st,
        renombrar_pdfs_en_directorio t = (Ok t, st)
        /\ renombrados_info st = []
        /\ advertencias_errores st = [msg_sin_pdfs]
        /\ salida st = [Advertencia msg_sin_pdfs])
    /\ (endswith (lit ".zip") nombre = true ->
        rename_pdf (Some (subida_de nombre t))
        = Ok (Adjunto (lit "renombrados.zip") [])).
Proof.
  intros t nombre H0.
  destruct (recorrer_bien_nombrado t [] estado_inicial (sin_pdfs_bien_nombrado t H0))
    as [st' [E Hs]].
  destruct (recorrer_ok t [] estado_inicial) as [t' [st'' [E' [Hc Ha]]]].
  rewrite E in E'. injection E' as <- <-.
  destruct Hs as [Hadv [rutas [Hr Hsal]]]. cbn in Hadv, Hr, Hsal, Hc, Ha.
  unfold anotaciones in Ha. rewrite Hadv, Hr, H0 in Ha. cbn in Ha.
  assert (rutas = []) as -> by (destruct rutas; [reflexivity|cbn in Ha; lia]).
  assert (Erun : renombrar_pdfs_en_directorio t
                 = (Ok t, anotar_problema (Advertencia msg_sin_pdfs) msg_sin_pdfs st')).
  { unfold renombrar_pdfs_en_directorio. unfold bind at 1. rewrite E.
    unfold bind at 1, leer at 1. rewrite Hc, H0. reflexivity. }
  split.
  - eexists. split; [exact Erun|]. cbn. rewrite Hr, Hadv, Hsal. repeat split.
  - intros Hzip. unfold rename_pdf, subida_de. cbn [filename contenido].
    rewrite Hzip. cbn [negb]. rewrite Erun.
    now rewrite (entradas_zip_sin_pdfs t [] H0).
Qed.

Lemma arbol_sin_pdfs_witness :
  (exists st,
      renombrar_pdfs_en_directorio (Dir [(lit "notes.txt", SinPaginas)] [])
      = (Ok (Dir [(lit "notes.txt", SinPaginas)] []), st)
      /\ renombrados_info st = []
      /\ advertencias_errores st = [msg_sin_pdfs]
      /\ salida st = [Advertencia msg_sin_pdfs])
  /\ rename_pdf (Some (subida_de (lit "a.zip") (Dir [(lit "notes.txt", SinPaginas)] [])))
     = Ok (Adjunto (lit "renombrados.zip") []).
Proof.
  destruct (arbol_sin_pdfs (Dir [(lit "notes.txt", SinPaginas)] []) (lit "a.zip"))
    as [H1 H2].
  - vm_compute. reflexivity.
  - split; [exact H1|]. apply H2. vm_compute. reflexivity.
Defined.

(** ** What a run keeps of the tree *)

Lemma paso_pdf_renombra_uno (dirnames : list str) (dirpath f : str)
    (st st' : estado) :
  paso_pdf dirnames dirpath f st st' ->
  renombra_uno dirnames (archivos st) (archivos st').
Proof.
  intros H. destruct H; try (left; reflexivity).
  right. exists f, nuevo. now split.
Qed.

Section Listados.

Variable P : list (str * lectura) -> list (str * lectura) -> Prop.
Hypothesis P_refl : forall fs, P fs fs.
Hypothesis P_trans : forall a b c, P a b -> P b c -> P a c.
Hypothesis P_paso : forall dirnames fs fs', renombra_uno dirnames fs fs' -> P fs fs'.

Lemma bucle_archivos_rel (dirnames : list str) (dirpath : str)
    (filenames : list str) :
  forall st,
  exists st', bucle_archivos dirnames dirpath filenames st = (Ok tt, st')
              /\ P (archivos st) (archivos st').
Proof.
  induction filenames as [|f resto IH]; intros st.
  - exists st. split; [reflexivity|apply P_refl].
  - cbn [bucle_archivos]. unfold bind at 1. destruct (es_pdf f).
    + destruct (procesar_pdf_paso dirnames dirpath f st) as [st1 [E Hp]].
      rewrite E. destruct (IH st1) as [st' [E' HP]]. exists st'.
      split; [exact E'|].
      apply (P_trans _ (archivos st1)); [|exact HP].
      apply (P_paso dirnames). now apply (paso_pdf_renombra_uno _ dirpath f).
    + unfold ret at 1. apply IH.
Qed.

Lemma recorrer_rel (t : arbol) :
  forall dirpath st,
  exists t' st', recorrer dirpath t st = (Ok t', st') /\ arbol_rel P t t'.
Proof.
  induction t as [fs subs IH] using arbol_rect'. intros dirpath st.
  cbn [recorrer]. unfold bind at 1, modificar at 1. unfold bind at 1.
  destruct (bucle_archivos_rel (map fst subs) dirpath (map fst fs)
              (con_archivos fs st)) as [st1 [E1 HP]].
  rewrite E1. unfold bind at 1, leer at 1. cbn [archivos con_archivos] in HP.
  assert (Hb : forall s0, exists l' s1,
             bajar (fun d sub => recorrer (os_path_join dirpath d) sub) subs s0
             = (Ok l', s1)
             /\ (fix todos (l l' : list (str * arbol)) : Prop :=
                   match l, l' with
                   | [], [] => True
                   | (d, sub) :: l1, (d', sub') :: l1' =>
                       d' = d /\ arbol_rel P sub sub' /\ todos l1 l1'
                   | _, _ => False
                   end) subs l').
  { clear E1 HP. induction IH as [|[d sub] l Hsub _ IHl]; intros s0.
    - exists [], s0. split; [reflexivity|exact I].
    - cbn [bajar]. unfold bind at 1. cbn [snd] in Hsub.
      destruct (Hsub (os_path_join dirpath d) s0) as [sub' [s1 [E Hr]]].
      rewrite E. unfold bind at 1.
      destruct (IHl s1) as [l' [s2 [E' Hl]]]. rewrite E'.
      exists ((d, sub') :: l'), s2. split; [reflexivity|].
      split; [reflexivity|]. split; [exact Hr|exact Hl]. }
  destruct (Hb st1) as [l' [s1 [E Hl]]].
  unfold bind at 1. rewrite E. exists (Dir (archivos st1) l'), s1.
  split; [reflexivity|]. cbn [arbol_rel]. split; [exact HP|exact Hl].
Qed.

Lemma renombrar_pdfs_en_directorio_rel (t : arbol) :
  exists t' st, renombrar_pdfs_en_directorio t = (Ok t', st) /\ arbol_rel P t t'.
Proof.
  destruct (recorrer_rel t [] estado_inicial) as [t' [st [E Hr]]].
  unfold renombrar_pdfs_en_directorio. unfold bind at 1. rewrite E.
  unfold bind at 1, leer at 1.
  destruct (Nat.eqb (pdf_procesados st) 0); eexists; eexists;
    (split; [reflexivity|exact Hr]).
Qed.

End Listados.




Lemma NoDup_nombres_unicos (l : list str) : NoDup l -> nombres_unicos l = true.
Proof.
  induction 1 as [|n l Hn _ IH]; [reflexivity|].
  cbn [nombres_unicos]. rewrite IH, andb_true_r. apply negb_true_iff.
  destruct (existsb (eqb n) l) eqn:E; [|reflexivity].
  apply existsb_exists in E. destruct E as [x [Hin Hx]].
  apply eqb_eq in Hx. subst x. contradiction.
Qed.

Lemma In_nombres_renombrar (f nuevo a : str) (fs : list (str * lectura)) :
  In a (map fst (map (renombrar_entrada f nuevo) fs)) ->
  a = nuevo \/ In a (map fst fs).
Proof.
  induction fs as [|[b l] fs IH]; intros H; [destruct H|].
  cbn [map] in H.
  replace (renombrar_entrada f nuevo (b, l))
    with (if eqb b f then (nuevo, l) else (b, l)) in H by reflexivity.
  destruct H as [H|H].
  - destruct (eqb b f); cbn [fst] in H; [now left|right; now left].
  - destruct (IH H) as [->|Hin]; [now left|right; now right].
Qed.

Lemma renombrar_ausente (f nuevo : str) (fs : list (str * lectura)) :
  ~ In f (map fst fs) -> map (renombrar_entrada f nuevo) fs = fs.
Proof.
  induction fs as [|[a l] fs IH]; intros H; [reflexivity|].
  cbn [map fst] in H. cbn [map].
  replace (renombrar_entrada f nuevo (a, l))
    with (if eqb a f then (nuevo, l) else (a, l)) by reflexivity.
  destruct (eqb a f) eqn:Ea.
  - apply eqb_eq in Ea. subst a. exfalso. apply H. now left.
  - f_equal. apply IH. intros Hin. apply H. now right.
Qed.

Lemma NoDup_renombrar (f nuevo : str) (fs : list (str * lectura)) :
  ~ In nuevo (map fst fs) ->
  NoDup (map fst fs) ->
  NoDup (map fst (map (renombrar_entrada f nuevo) fs)).
Proof.
  induction fs as [|[a l] fs IH]; intros Hn Hnd; [constructor|].
  cbn [map fst] in Hn, Hnd. inversion Hnd as [|? ? Ha Hnd']; subst.
  assert (Hn' : ~ In nuevo (map fst fs)) by (intros H; apply Hn; now right).
  cbn [map].
  replace (renombrar_entrada f nuevo (a, l))
    with (if eqb a f then (nuevo, l) else (a, l)) by reflexivity.
  destruct (eqb a f) eqn:Ea; cbn [fst].
  - apply eqb_eq in Ea. subst a. rewrite (renombrar_ausente f nuevo fs Ha).
    now constructor.
  - constructor; [|now apply IH].
    intros H. apply In_nombres_renombrar in H. destruct H as [H|H].
    + apply Hn. left. now symmetry.
    + contradiction.
Qed.

Lemma no_existe_no_esta (dirnames : list str) (fs : list (str * lectura))
    (n : str) :
  os_path_exists dirnames fs n = false -> ~ In n (map fst fs).
Proof.
  unfold os_path_exists. intros H Hin. apply orb_false_iff in H.
  destruct H as [H _].
  assert (existsb (eqb n) (map fst fs) = true)
    by (apply existsb_exists; exists n; split; [exact Hin|apply eqb_refl]).
  congruence.
Qed.

Lemma bien_formado_rel (t : arbol) :
  forall t',
    arbol_rel (fun fs fs' => NoDup (map fst fs) -> NoDup (map fst fs')) t t' ->
    bien_formado t = true -> bien_formado t' = true.
Proof.
  induction t as [fs subs IH] using arbol_rect'. intros [fs' subs'] [Hfs Hsubs] Hbf.
  cbn [bien_formado] in *. apply andb_true_iff in Hbf. destruct Hbf as [Hu Hs].
  apply andb_true_iff. split.
  - apply NoDup_nombres_unicos, Hfs. now apply nombres_unicos_NoDup.
  - clear Hfs Hu. revert subs' Hsubs Hs.
    induction IH as [|[d sub] l Hsub _ IHl];
      intros [|[d' sub'] l'] Hl Hs; try destruct Hl; [reflexivity|].
    destruct H0 as [Hr Hl]. cbn [forallb] in *.
    apply andb_true_iff in Hs. destruct Hs as [Hs1 Hs2]. cbn [snd] in Hsub.
    rewrite (Hsub _ Hr Hs1). cbn [andb]. now apply IHl.
Qed.

(** X4. The run never makes two files of a directory share a name: from a
    tree whose directories hold no file name twice it leaves such a tree, so
    no rename lands on another file. *)
Theorem corrida_conserva_nombres_unicos :
  forall t : arbol,
    bien_formado t = true ->
    exists t' st,
      renombrar_pdfs_en_directorio t = (Ok t', st)
      /\ bien_formado t' = true.
Proof.
  intros t Hbf.
  destruct (renombrar_pdfs_en_directorio_rel
              (fun fs fs' => NoDup (map fst fs) -> NoDup (map fst fs')))
    with (t := t) as [t' [st [E Hr]]].
  - intros fs H. exact H.
  - intros a b c Hab Hbc H. auto.
  - intros dirnames fs fs' [->|[f [nuevo [Hlibre ->]]]] Hnd; [exact Hnd|].
    apply NoDup_renombrar; [|exact Hnd].
    now apply (no_existe_no_esta dirnames).
  - exists t', st. split; [exact E|]. now apply (bien_formado_rel t).
Qed.

Lemma corrida_conserva_nombres_unicos_witness :
  exists t' st,
    renombrar_pdfs_en_directorio dir_tres = (Ok t', st)
    /\ bien_formado t' = true.
Proof.
  apply (corrida_conserva_nombres_unicos dir_tres). vm_compute. reflexivity.
Defined.

(** ** Files the run has no reason to move *)

Lemma procesar_pdf_se_queda (dirnames : list str) (dirpath f : str) (st : estado)
    (c : lectura) :
  buscar f (archivos st) = Some c ->
  se_queda f c = true ->
  es_pdf f = true ->
  exists st', procesar_pdf dirnames dirpath f st = (Ok tt, st')
              /\ archivos st' = archivos st.
Proof.
  intros Hb Hq Hpdf. unfold se_queda in Hq. rewrite Hpdf in Hq. cbn [negb orb] in Hq.
  unfold procesar_pdf, cuerpo_try, pdfplumber_open, extract_text. desplegar.
  change (archivos (contar_pdf st)) with (archivos st). rewrite Hb.
  destruct c as [e| |[e| |texto]]; try (eexists; split; reflexivity).
  destruct texto as [|c0 texto]; [eexists; split; reflexivity|].
  unfold destino in Hq.
  destruct (extraer_nombre (c0 :: texto)) as [[|x n]|];
    try (eexists; split; reflexivity).
  rewrite Hq. cbn [negb]. eexists; split; reflexivity.
Qed.

Lemma bucle_archivos_se_queda (dirnames : list str) (dirpath : str)
    (filenames : list str) (n : str) (c : lectura) :
  forall st,
    buscar n (archivos st) = Some c ->
    se_queda n c = true ->
    exists st', bucle_archivos dirnames dirpath filenames st = (Ok tt, st')
                /\ buscar n (archivos st') = Some c.
Proof.
  induction filenames as [|f resto IH]; intros st Hb Hq.
  - exists st. now split.
  - cbn [bucle_archivos]. unfold bind at 1. destruct (es_pdf f) eqn:Hpdf.
    + destruct (eqb f n) eqn:Efn.
      * apply eqb_eq in Efn. subst f.
        destruct (procesar_pdf_se_queda dirnames dirpath n st c Hb Hq Hpdf)
          as [st1 [E Ha]].
        rewrite E. apply IH; [now rewrite Ha|exact Hq].
      * apply eqb_neq in Efn.
        destruct (procesar_pdf_paso dirnames dirpath f st) as [st1 [E Hp]].
        rewrite E. apply paso_pdf_conserva in Hp. destruct Hp as [_ Hk].
        apply IH; [|exact Hq]. apply Hk; [congruence|exact Hb].
    + unfold ret at 1. now apply IH.
Qed.

(** The descent reaches a sub-directory and leaves it as its own walk does. *)
Lemma bajar_alcanza (Q : arbol -> Prop) (dirpath : str) (subs : list (str * arbol))
    (d : str) (sub : arbol) :
  In (d, sub) subs ->
  (forall st, exists t' st',
      recorrer (os_path_join dirpath d) sub st = (Ok t', st') /\ Q t') ->
  forall st,
  exists l' st',
    bajar (fun d sub => recorrer (os_path_join dirpath d) sub) subs st = (Ok l', st')
    /\ exists sub', In (d, sub') l' /\ Q sub'.
Proof.
  intros Hin Hsub. induction subs as [|[d0 sub0] l IH]; intros st; [destruct Hin|].
  cbn [bajar]. unfold bind at 1. destruct Hin as [Heq|Hin].
  - injection Heq as -> ->.
    destruct (Hsub st) as [sub' [s1 [E HQ]]]. rewrite E. unfold bind at 1.
    destruct (bajar_conserva dirpath l s1) as [l' [s2 [E' _]]]. rewrite E'.
    exists ((d, sub') :: l'), s2. split; [reflexivity|].
    exists sub'. split; [now left|exact HQ].
  - destruct (recorrer_conserva sub0 (os_path_join dirpath d0) st)
      as [sub0' [s1 [E _]]].
    rewrite E. unfold bind at 1.
    destruct (IH Hin s1) as [l' [s2 [E' [sub' [Hin' HQ]]]]]. rewrite E'.
    exists ((d0, sub0') :: l'), s2. split; [reflexivity|].
    exists sub'. split; [now right|exact HQ].
Qed.

Lemma recorrer_se_queda (raiz : str) (t : arbol) (dirpath n : str) (c : lectura) :
  archivo_en raiz t dirpath n c ->
  bien_formado t = true ->
  se_queda n c = true ->
  forall st,
  exists t' st',
    recorrer raiz t st = (Ok t', st') /\ archivo_en raiz t' dirpath n c.
Proof.
  intros Hen. induction Hen as [raiz fs subs n c Hin
                               |raiz fs subs d sub dirpath n c Hsub Hen IH];
    intros Hbf Hq st; cbn [bien_formado] in Hbf;
    apply andb_true_iff in Hbf; destruct Hbf as [Hfs Hsubs].
  - apply nombres_unicos_NoDup in Hfs.
    cbn [recorrer]. unfold bind at 1, modificar at 1. unfold bind at 1.
    destruct (bucle_archivos_se_queda (map fst subs) raiz (map fst fs) n c
                (con_archivos fs st)) as [st1 [E1 Hb]]; auto.
    + cbn [archivos con_archivos]. now apply In_buscar.
    + rewrite E1. unfold bind at 1, leer at 1.
      destruct (bajar_conserva raiz subs st1) as [l' [s1 [E _]]].
      unfold bind at 1. rewrite E. exists (Dir (archivos st1) l'), s1.
      split; [reflexivity|]. apply archivo_aqui. now apply buscar_In.
  - rewrite forallb_forall in Hsubs. pose proof (Hsubs _ Hsub) as Hbsub.
    cbn beta iota in Hbsub.
    cbn [recorrer]. unfold bind at 1, modificar at 1. unfold bind at 1.
    destruct (bucle_archivos_ok (map fst subs) raiz (map fst fs) (con_archivos fs st))
      as [st1 [E1 _]].
    rewrite E1. unfold bind at 1, leer at 1.
    destruct (bajar_alcanza
                (fun t' => archivo_en (os_path_join raiz d) t' dirpath n c)
                raiz subs d sub Hsub (IH Hbsub Hq) st1)
      as [l' [s1 [E [sub' [Hin' Hen']]]]].
    unfold bind at 1. rewrite E. exists (Dir (archivos st1) l'), s1.
    split; [reflexivity|]. now apply (archivo_abajo raiz _ _ d sub').
Qed.

Lemma renombrar_desde_recorrer (t t' : arbol) (st : estado) :
  recorrer [] t estado_inicial = (Ok t', st) ->
  exists st',
    renombrar_pdfs_en_directorio t = (Ok t', st')
    /\ incl (advertencias_errores st) (advertencias_errores st')
    /\ renombrados_info st' = renombrados_info st.
Proof.
  intros E. unfold renombrar_pdfs_en_directorio. unfold bind at 1. rewrite E.
  unfold bind at 1, leer at 1.
  destruct (Nat.eqb (pdf_procesados st) 0); eexists;
    (split; [reflexivity|]); cbn; split; try reflexivity.
  - apply incl_appl, incl_refl.
  - apply incl_refl.
Qed.

(** X5. In a tree whose directories hold no file name twice, a file the
    engine has no reason to move is found after the run where it was, under
    its name and with its content: every file that is not a PDF, every
    document whose first page gives no name, and every document that bears
    its name already, whatever happens to the files around it. *)
Theorem corrida_deja_en_su_sitio :
  forall (t : arbol) (dirpath n : str) (c : lectura),
    bien_formado t = true ->
    archivo_en [] t dirpath n c ->
    se_queda n c = true ->
    exists t' st,
      renombrar_pdfs_en_directorio t = (Ok t', st)
      /\ archivo_en [] t' dirpath n c.
Proof.
  intros t dirpath n c Hbf Hen Hq.
  destruct (recorrer_se_queda [] t dirpath n c Hen Hbf Hq estado_inicial)
    as [t' [st [E Hen']]].
  destruct (renombrar_desde_recorrer t t' st E) as [st' [E' _]].
  exists t', st'. now split.
Qed.

Lemma corrida_deja_en_su_sitio_witness :
  exists t' st,
    renombrar_pdfs_en_directorio dir_problemas = (Ok t', st)
    /\ archivo_en [] t' [] (lit "LEEME.md") SinPaginas.
Proof.
  apply (corrida_deja_en_su_sitio dir_problemas [] (lit "LEEME.md") SinPaginas).
  - vm_compute. reflexivity.
  - apply archivo_aqui. do 5 right. left. reflexivity.
  - vm_compute. reflexivity.
Defined.

(** ** Documents that give no name *)

Lemma procesar_pdf_problema (dirnames : list str) (dirpath f : str) (st : estado)
    (c : lectura) (msg : str) :
  buscar f (archivos st) = Some c ->
  problema_de (os_path_join dirpath f) c = Some msg ->
  exists st', procesar_pdf dirnames dirpath f st = (Ok tt, st')
              /\ advertencias_errores st' = advertencias_errores st ++ [msg].
Proof.
  intros Hb Hm. unfold procesar_pdf, cuerpo_try, pdfplumber_open, extract_text.
  desplegar. change (archivos (contar_pdf st)) with (archivos st). rewrite Hb.
  unfold problema_de in Hm.
  destruct c as [e| |[e| |texto]]; try discriminate Hm;
    try (injection Hm as <-; eexists; split; reflexivity).
  destruct texto as [|c0 texto];
    [injection Hm as <-; eexists; split; reflexivity|].
  destruct (extraer_nombre (c0 :: texto)) as [[|x n]|]; try discriminate Hm;
    injection Hm as <-; eexists; split; reflexivity.
Qed.

Lemma bucle_archivos_problema (dirnames : list str) (dirpath : str)
    (filenames : list str) (g : str) (c : lectura) (msg : str) :
  forall st,
    NoDup filenames -> In g filenames -> es_pdf g = true ->
    buscar g (archivos st) = Some c ->
    problema_de (os_path_join dirpath g) c = Some msg ->
    exists st',
      bucle_archivos dirnames dirpath filenames st = (Ok tt, st')
      /\ In msg (advertencias_errores st').
Proof.
  induction filenames as [|f resto IH]; intros st Hnd Hin Hpdf Hb Hm;
    [destruct Hin|].
  inversion Hnd as [|? ? Hnotin Hnd']; subst.
  cbn [bucle_archivos]. unfold bind at 1. destruct Hin as [->|Hin].
  - rewrite Hpdf.
    destruct (procesar_pdf_problema dirnames dirpath g st c msg Hb Hm)
      as [st1 [E Ha]].
    rewrite E.
    destruct (bucle_archivos_ok dirnames dirpath resto st1) as [st' [E' _]].
    exists st'. split; [exact E'|].
    apply (bucle_archivos_conserva _ _ _ _ _ _ E').
    rewrite Ha. apply in_or_app. right. now left.
  - assert (Hgf : g <> f) by (intros ->; contradiction).
    destruct (es_pdf f).
    + destruct (procesar_pdf_paso dirnames dirpath f st) as [st1 [E Hp]].
      rewrite E. apply paso_pdf_conserva in Hp. destruct Hp as [_ Hk].
      apply IH; auto.
    + unfold ret at 1. apply IH; auto.
Qed.

Lemma recorrer_problema (raiz : str) (t : arbol) (dirpath n : str) (c : lectura)
    (msg : str) :
  archivo_en raiz t dirpath n c ->
  bien_formado t = true ->
  es_pdf n = true ->
  problema_de (os_path_join dirpath n) c = Some msg ->
  forall st,
  exists t' st',
    recorrer raiz t st = (Ok t', st') /\ In msg (advertencias_errores st').
Proof.
  intros Hen. induction Hen as [raiz fs subs n c Hin
                               |raiz fs subs d sub dirpath n c Hsub Hen IH];
    intros Hbf Hpdf Hm st; cbn [bien_formado] in Hbf;
    apply andb_true_iff in Hbf; destruct Hbf as [Hfs Hsubs].
  - apply nombres_unicos_NoDup in Hfs.
    cbn [recorrer]. unfold bind at 1, modificar at 1. unfold bind at 1.
    destruct (bucle_archivos_problema (map fst subs) raiz (map fst fs) n c msg
                (con_archivos fs st) Hfs) as [st1 [E1 Hmsg]]; auto.
    + apply in_map_iff. now exists (n, c).
    + cbn [archivos con_archivos]. now apply In_buscar.
    + rewrite E1. unfold bind at 1, leer at 1.
      destruct (bajar_conserva raiz subs st1) as [l' [s1 [E Hi]]].
      unfold bind at 1. rewrite E. exists (Dir (archivos st1) l'), s1.
      split; [reflexivity|]. now apply Hi.
  - rewrite forallb_forall in Hsubs. pose proof (Hsubs _ Hsub) as Hbsub.
    cbn beta iota in Hbsub.
    cbn [recorrer]. unfold bind at 1, modificar at 1. unfold bind at 1.
    destruct (bucle_archivos_ok (map fst subs) raiz (map fst fs) (con_archivos fs st))
      as [st1 [E1 _]].
    rewrite E1. unfold bind at 1, leer at 1.
    destruct (bajar_excepcion raiz subs d sub msg Hsub (IH Hbsub Hpdf Hm) st1)
      as [l' [s1 [E Hmsg]]].
    unfold bind at 1. rewrite E. exists (Dir (archivos st1) l'), s1.
    now split.
Qed.

Lemma problema_se_queda (rel n : str) (c : lectura) (msg : str) :
  problema_de rel c = Some msg -> se_queda n c = true.
Proof.
  unfold problema_de, se_queda, destino. intros H.
  destruct c as [e| |[e| |texto]]; try discriminate H;
    try (now rewrite orb_true_r).
  destruct texto as [|c0 texto].
  - cbn. now rewrite orb_true_r.
  - destruct (extraer_nombre (c0 :: texto)) as [[|x m]|]; try discriminate H;
      now rewrite orb_true_r.
Qed.

(** X6. In a tree whose directories hold no file name twice, every PDF that
    opens and reads without an exception but gives no name is reported and
    left alone: a document without pages gets the no-pages warning, one whose
    first page has no text the no-text warning, one whose text has no anchor
    line below the first (or only blanks above it) the no-key-text error, each
    with the path of the document relative to the root; and the document is
    found after the run where it was, under its name. *)
Theorem documento_sin_nombre_avisado :
  forall (t : arbol) (dirpath n : str) (c : lectura) (msg : str),
    bien_formado t = true ->
    archivo_en [] t dirpath n c ->
    es_pdf n = true ->
    problema_de (os_path_join dirpath n) c = Some msg ->
    exists t' st,
      renombrar_pdfs_en_directorio t = (Ok t', st)
      /\ In msg (advertencias_errores st)
      /\ archivo_en [] t' dirpath n c.
Proof.
  intros t dirpath n c msg Hbf Hen Hpdf Hm.
  destruct (recorrer_problema [] t dirpath n c msg Hen Hbf Hpdf Hm estado_inicial)
    as [t' [st [E Hmsg]]].
  destruct (recorrer_se_queda [] t dirpath n c Hen Hbf
              (problema_se_queda _ n c msg Hm) estado_inicial)
    as [t'' [st'' [E' Hen']]].
  rewrite E in E'. injection E' as <- <-.
  destruct (renombrar_desde_recorrer t t' st E) as [st' [Erun [Hi _]]].
  exists t', st'. split; [exact Erun|]. split; [now apply Hi|exact Hen'].
Qed.

Lemma documento_sin_nombre_avisado_witness :
  exists t' st,
    renombrar_pdfs_en_directorio dir_problemas = (Ok t', st)
    /\ In (msg_sin_clave (lit "carta.pdf")) (advertencias_errores st)
    /\ archivo_en [] t' [] (lit "carta.pdf")
                  (ConPaginas (Extrae (lit "Estimado cliente"))).
Proof.
  apply (documento_sin_nombre_avisado dir_problemas [] (lit "carta.pdf")
           (ConPaginas (Extrae (lit "Estimado cliente")))
           (msg_sin_clave (lit "carta.pdf"))).
  - vm_compute. reflexivity.
  - apply archivo_aqui. do 2 right. left. reflexivity.
  - vm_compute. reflexivity.
  - vm_compute. reflexivity.
Defined.

(** ** New names *)








Section Estados.

Variable Inv : estado -> Prop.
Hypothesis Inv_archivos : forall fs st, Inv st -> Inv (con_archivos fs st).
Hypothesis Inv_paso :
  forall dirnames dirpath f st st',
    Inv st -> procesar_pdf dirnames dirpath f st = (Ok tt, st') -> Inv st'.



End Estados.



Example renombrados_de_ejemplo :
  List.length
    (filter (fun ev => match ev with Renombrado _ _ => true | _ => false end)
            (salida (snd (renombrar_pdfs_en_directorio dir_problemas))))
  = 2%nat.
Proof. vm_compute. reflexivity. Qed.

(** ** A free name *)




(** ** The counter over a run of requests *)

Lemma generate_coupon_contador (env : entorno) (data : json) (c : Z) :
  snd (generate_coupon env data c)
  = if pasa_validacion data then (c + 1)%Z else c.
Proof.
  destruct data as [| | | | |kv]; try reflexivity.
  rewrite generate_coupon_objeto. cbn zeta. unfold pasa_validacion.
  destruct (buscar_clave (lit "recipientName") kv) as [[| | |s| |]|];
    try reflexivity;
    (destruct (buscar_clave (lit "alumniName") kv) as [v|]; [|reflexivity];
     destruct (truthy v); [|reflexivity];
     match goal with
     | |- context [cuerpo_cupon env v ?r c] =>
         destruct (cuerpo_cupon_casos env v r c) as [[b E]|[e E]]; rewrite E;
         reflexivity
     end).
Qed.

(** X9. The counter after a run of requests is the counter before it plus the
    number of requests that passed the validation, whatever became of them:
    it never goes down, and a request that is rejected, or that raises before
    the validation, leaves it as it was. *)
Theorem contador_cuenta_validadas :
  forall (peticiones : list (entorno * json)) (c : Z),
    snd (atender peticiones c) = (c + Z.of_nat (validadas peticiones))%Z
    /\ (c <= snd (atender peticiones c) <= c + Z.of_nat (List.length peticiones))%Z.
Proof.
  intros peticiones.
  assert (H : forall c, snd (atender peticiones c)
                        = (c + Z.of_nat (validadas peticiones))%Z).
  { unfold validadas. induction peticiones as [|[env data] resto IH]; intros c.
    - cbn. lia.
    - rewrite atender_cons. cbn [snd filter]. rewrite IH, generate_coupon_contador.
      destruct (pasa_validacion data); cbn [List.length]; lia. }
  intros c. split; [apply H|]. rewrite H.
  assert (validadas peticiones <= List.length peticiones)
    by (unfold validadas; apply filter_length_le).
  lia.
Qed.

(** ** No folio twice *)

Lemma lit_cons (ch : ascii) (s : string) :
  lit (String ch s) = N_of_ascii ch :: lit s.
Proof. reflexivity. Qed.

Lemma ceros_digitos (k : nat) (d : Decimal.uint) :
  repeat 48%N k ++ lit (NilEmpty.string_of_uint d)
  = lit (NilEmpty.string_of_uint (Nat.iter k Decimal.D0 d)).
Proof.
  induction k as [|k IH]; [reflexivity|].
  change (48%N :: (repeat 48%N k ++ lit (NilEmpty.string_of_uint d))
          = 48%N :: lit (NilEmpty.string_of_uint (Nat.iter k Decimal.D0 d))).
  now f_equal.
Qed.

Lemma zfill_digitos (w : nat) (d : Decimal.uint) :
  d <> Decimal.Nil ->
  zfill w (lit (NilEmpty.string_of_uint d))
  = lit (NilEmpty.string_of_uint
           (Nat.iter (w - List.length (lit (NilEmpty.string_of_uint d)))
                     Decimal.D0 d)).
Proof.
  intros Hd. rewrite <- ceros_digitos. unfold zfill.
  destruct d; [contradiction| | | | | | | | | |];
    cbn [NilEmpty.string_of_uint]; rewrite lit_cons; reflexivity.
Qed.

Lemma of_uint_ceros (k : nat) (d : Decimal.uint) :
  Z.of_uint (Nat.iter k Decimal.D0 d) = Z.of_uint d.
Proof. induction k as [|k IH]; [reflexivity|exact IH]. Qed.

Lemma str_Z_digitos (z : Z) :
  (0 <= z)%Z ->
  exists d, d <> Decimal.Nil
            /\ str_Z z = lit (NilEmpty.string_of_uint d)
            /\ Z.of_uint d = z.
Proof.
  intros Hz. destruct z as [|p|p]; [| |lia].
  - exists (Decimal.D0 Decimal.Nil). repeat split. discriminate.
  - exists (Pos.to_uint p). split; [apply DecimalPos.Unsigned.to_uint_nonnil|].
    split.
    + unfold str_Z. cbn [Z.to_int NilZero.string_of_int]. unfold NilZero.string_of_uint.
      pose proof (DecimalPos.Unsigned.to_uint_nonnil p) as Hn.
      destruct (Pos.to_uint p); [contradiction| | | | | | | | | |]; reflexivity.
    + exact (DecimalZ.of_to (Z.pos p)).
Qed.

(** The folio of a counter value tells the value. *)
Lemma folio_inj (a b : Z) :
  (0 <= a)%Z -> (0 <= b)%Z ->
  zfill 4 (str_Z a) = zfill 4 (str_Z b) -> a = b.
Proof.
  intros Ha Hb H.
  destruct (str_Z_digitos a Ha) as [da [Hda [Ea Va]]].
  destruct (str_Z_digitos b Hb) as [db [Hdb [Eb Vb]]].
  rewrite Ea, Eb, (zfill_digitos 4 da Hda), (zfill_digitos 4 db Hdb) in H.
  apply lit_inj in H.
  assert (Hs : Some (Nat.iter (4 - List.length (lit (NilEmpty.string_of_uint da)))
                       Decimal.D0 da)
               = Some (Nat.iter (4 - List.length (lit (NilEmpty.string_of_uint db)))
                         Decimal.D0 db))
    by (rewrite <- !NilEmpty.usu; now f_equal).
  injection Hs as Hs. apply (f_equal Z.of_uint) in Hs.
  rewrite !of_uint_ceros in Hs. congruence.
Qed.

Lemma folios_de_una_corrida (peticiones : list (entorno * json)) :
  forall c : Z,
    (0 <= c)%Z ->
    NoDup (folios_exitosos (fst (atender peticiones c)))
    /\ forall f, In f (folios_exitosos (fst (atender peticiones c))) ->
                 exists k, (c < k)%Z /\ f = zfill 4 (str_Z k).
Proof.
  induction peticiones as [|[env data] resto IH]; intros c Hc.
  - cbn. split; [constructor|intros f []].
  - rewrite atender_cons. cbn [fst folios_exitosos].
    pose proof (generate_coupon_casos env data c) as Hcaso.
    unfold termina_como in Hcaso.
    destruct Hcaso as [[e E]|[E|[[b E]|[msg E]]]]; rewrite E; cbn [fst snd].
    + cbn [folio_de]. now apply IH.
    + change (folio_de _) with (@None str). now apply IH.
    + change (folio_de _) with (Some (zfill 4 (str_Z (c + 1)))).
      destruct (IH (c + 1)%Z ltac:(lia)) as [Hnd Hk]. split.
      * constructor; [|exact Hnd]. intros Hin.
        destruct (Hk _ Hin) as [k [Hlt Hf]].
        apply folio_inj in Hf; lia.
      * intros f [<-|Hin]; [exists (c + 1)%Z; split; [lia|reflexivity]|].
        destruct (Hk _ Hin) as [k [Hlt Hf]]. exists k. split; [lia|exact Hf].
    + change (folio_de _) with (@None str).
      destruct (IH (c + 1)%Z ltac:(lia)) as [Hnd Hk]. split; [exact Hnd|].
      intros f Hin. destruct (Hk _ Hin) as [k [Hlt Hf]].
      exists k. split; [lia|exact Hf].
Qed.

(** X10. From a counter value that is not negative, no two successful
    generations of a run, however long, return the same folio: the folios
    stay distinct past 9999, where they grow to five characters and more. *)
Theorem folios_sin_repetir :
  forall (peticiones : list (entorno * json)) (c : Z),
    (0 <= c)%Z ->
    NoDup (folios_exitosos (fst (atender peticiones c))).
Proof.
  intros peticiones c Hc. now apply folios_de_una_corrida.
Qed.

Lemma folios_sin_repetir_witness :
  NoDup (folios_exitosos
           (fst (atender [(entorno_ok, peticion "Ana");
                          (entorno_ok, peticion_numero);
                          (entorno_ok, peticion "Luis")] 9998%Z))).
Proof.
  apply (folios_sin_repetir
           [(entorno_ok, peticion "Ana"); (entorno_ok, peticion_numero);
            (entorno_ok, peticion "Luis")] 9998%Z).
  lia.
Defined.

(** ** What a coupon shows *)



Example cupon_recipient_en_blanco :
  trazos_cupon (lit "0037") (lit "Ana Ruiz") (strip (lit "  ")) (Truetype 32)
  = [{| pos_x := 160; pos_y := 28; texto_trazo := lit "0037";
        fuente_trazo := Truetype 32 |};
     {| pos_x := 400; pos_y := 315; texto_trazo := lit "ANA RUIZ";
        fuente_trazo := Truetype 32 |}].
Proof. vm_compute. reflexivity. Qed.

(** X12. When the font file cannot be loaded with an [IOError] (an [OSError],
    a [FileNotFoundError]), the request is not failed: it is answered as in
    the environment where the font loads and every text is drawn with the
    built-in font, with the same folio.  Any other exception of the loading
    fails a request that passed the validation with the generic 500, the
    folio spent. *)
Theorem fuente_de_reserva :
  forall (env : entorno) (data : json) (c : Z) (e : excepcion),
    cargar_fuente env = Some e ->
    (es_ioerror (clase e) = true ->
     generate_coupon env data c = generate_coupon (con_fuente_de_reserva env) data c)
    /\ (es_ioerror (clase e) = false ->
        pasa_validacion data = true ->
        abrir_imagen env = None ->
        generate_coupon env data c
        = (Ok {| status := 500; cuerpo := [(lit "error", msg_interno e)] |},
           (c + 1)%Z)).
Proof.
  intros env data c e Hfont. split.
  - intros Hio. destruct data as [| | | | |kv]; try reflexivity.
    rewrite !generate_coupon_objeto. cbn zeta.
    assert (Hc : forall v r,
               cuerpo_cupon env v r c = cuerpo_cupon (con_fuente_de_reserva env) v r c).
    { intros v r. unfold cuerpo_cupon, levantar_si, py_upper. desplegar.
      cbn [abrir_imagen cargar_fuente renderizar con_fuente_de_reserva].
      rewrite Hfont, Hio. destruct (abrir_imagen env); [reflexivity|].
      destruct v; try reflexivity. destruct r; reflexivity. }
    destruct (buscar_clave (lit "recipientName") kv) as [[| | |s| |]|];
      try reflexivity; now rewrite Hc.
  - intros Hio Hval Himg. unfold pasa_validacion in Hval.
    destruct data as [| | | | |kv]; try discriminate Hval.
    rewrite generate_coupon_objeto. cbn zeta.
    assert (Hc : forall v r,
               cuerpo_cupon env v r c = (Raise e, (c + 1)%Z)).
    { intros v r. unfold cuerpo_cupon, levantar_si. desplegar.
      rewrite Himg, Hfont, Hio. reflexivity. }
    assert (Hcl : clase e <> FileNotFoundError)
      by (intros H; rewrite H in Hio; discriminate Hio).
    destruct (buscar_clave (lit "recipientName") kv) as [[| | |s| |]|];
      try discriminate Hval;
      (destruct (buscar_clave (lit "alumniName") kv) as [v|];
       [|discriminate Hval]; rewrite Hval, Hc;
       destruct (clase e); try reflexivity; contradiction).
Qed.

Lemma fuente_de_reserva_witness :
  generate_coupon entorno_sin_fuente (peticion "Ana") 36%Z
  = generate_coupon (con_fuente_de_reserva entorno_sin_fuente) (peticion "Ana") 36%Z
  /\ generate_coupon entorno_sin_fuente (peticion "Ana") 36%Z
     = (Ok {| status := 200;
              cuerpo := [(lit "couponImage", lit "/9j/2wBD");
                         (lit "folio", lit "0037")] |}, 37%Z).
Proof.
  split; [|vm_compute; reflexivity].
  apply (proj1 (fuente_de_reserva entorno_sin_fuente (peticion "Ana") 36%Z
                  {| clase := OSError; mensaje := lit "cannot open resource" |}
                  eq_refl)).
  reflexivity.
Defined.



(** ** The answers of the rename endpoint *)

(** X14. The rename endpoint always answers.  The answer is the attachment
    [renombrados.zip] exactly when the field is present, the name of the
    upload ends in [.zip] (in lower case) and its bytes extract to a tree,
    whatever the PDFs of the tree contain; it is a 500 exactly when the name
    ends in [.zip] and the extraction raises something other than
    [BadZipFile], and its message ends with the text of the exception; every
    other request gets a 400. *)
Theorem rename_pdf_respuestas :
  forall zip_file : option subida,
    exists r,
      rename_pdf zip_file = Ok r
      /\ ((exists entradas, r = Adjunto (lit "renombrados.zip") entradas)
          <-> exists up t,
                zip_file = Some up
                /\ endswith (lit ".zip") (filename up) = true
                /\ contenido up = ZipValido t)
      /\ (forall msg,
            r = ErrorJson 500 msg
            <-> exists up e,
                  zip_file = Some up
                  /\ endswith (lit ".zip") (filename up) = true
                  /\ contenido up = ZipFalla e
                  /\ clase e <> BadZipFile
                  /\ msg = msg_error_pdfs e)
      /\ ((exists entradas, r = Adjunto (lit "renombrados.zip") entradas)
          \/ (exists msg, r = ErrorJson 500 msg)
          \/ (exists msg, r = ErrorJson 400 msg)).
Proof.
  intros [up|]; unfold rename_pdf.
  2:{ eexists. split; [reflexivity|]. split; [|split].
      - split; [intros [es H]; discriminate H|intros [u [t [H _]]]; discriminate H].
      - intros msg. split; [intros H; discriminate H
                           |intros [u [e [H _]]]; discriminate H].
      - right; right. eauto. }
  destruct (endswith (lit ".zip") (filename up)) eqn:Hzip; cbn [negb].
  2:{ eexists. split; [reflexivity|]. split; [|split].
      - split; [intros [es H]; discriminate H|].
        intros [u [t [H [Hz _]]]]. injection H as <-. congruence.
      - intros msg. split; [intros H; discriminate H|].
        intros [u [e [H [Hz _]]]]. injection H as <-. congruence.
      - right; right. eauto. }
  destruct (contenido up) as [|e|t] eqn:Hc.
  - eexists. split; [reflexivity|]. split; [|split].
    + split; [intros [es H]; discriminate H|].
      intros [u [t [H [_ Ht]]]]. injection H as <-. congruence.
    + intros msg. split; [intros H; discriminate H|].
      intros [u [e [H [_ [He _]]]]]. injection H as <-. congruence.
    + right; right. eauto.
  - destruct (clase e) eqn:Hcl;
      (eexists; split; [reflexivity|]; split; [|split];
       [ split; [intros [es H]; discriminate H|];
         intros [u [t [H [_ Ht]]]]; injection H as <-; congruence
       | intros msg; split;
         [ intros H; try discriminate H; injection H as <-;
           exists up, e; repeat split; auto; congruence
         | intros [u [e' [H [_ [He [Hne ->]]]]]]; injection H as <-;
           assert (e' = e) by congruence; subst e';
           try reflexivity; contradiction ]
       | try (right; left; eauto; fail); right; right; eauto ]).
  - destruct (renombrar_pdfs_en_directorio_ok t) as [t' [st [E _]]]. rewrite E.
    eexists. split; [reflexivity|]. split; [|split].
    + split; [intros _; exists up, t; auto|eauto].
    + intros msg. split; [intros H; discriminate H|].
      intros [u [e [H [_ [He _]]]]]. injection H as <-. congruence.
    + left. eauto.
Qed.

(** ** The extracted name is one trimmed line *)

Lemma split_nl_sin_salto (s : str) :
  Forall (fun l => ~ In 10%N l) (split_nl s).
Proof.
  induction s as [|c s IH]; [repeat constructor; intros []|].
  cbn [split_nl]. destruct (N.eqb c 10) eqn:Ec.
  - constructor; [intros []|exact IH].
  - destruct (split_nl s) as [|l ls]; [repeat constructor; intros [H|[]]|].
    + apply N.eqb_neq in Ec. congruence.
    + inversion IH as [|? ? Hl Hls]; subst. constructor; [|exact Hls].
      intros [H|H]; [apply N.eqb_neq in Ec; congruence|contradiction].
Qed.

Lemma lstrip_sufijo (s : str) :
  exists p, s = p ++ lstrip s.
Proof.
  induction s as [|c s [p Hp]]; [exists []; reflexivity|].
  cbn [lstrip]. destruct (es_espacio c).
  - exists (c :: p). cbn. now f_equal.
  - exists []. reflexivity.
Qed.

Lemma lstrip_cabeza (s : str) (c : char) (r : str) :
  lstrip s = c :: r -> es_espacio c = false.
Proof.
  induction s as [|x s IH]; intros H; [discriminate H|].
  cbn [lstrip] in H. destruct (es_espacio x) eqn:Ex; [now apply IH|].
  injection H as <- _. exact Ex.
Qed.

Lemma strip_prefijo (s : str) :
  exists q, lstrip s = strip s ++ q.
Proof.
  unfold strip, rstrip. destruct (lstrip_sufijo (rev (lstrip s))) as [p Hp].
  exists (rev p). rewrite <- rev_app_distr, <- Hp. now rewrite rev_involutive.
Qed.

Lemma strip_dentro (s : str) (c : char) : In c (strip s) -> In c s.
Proof.
  intros H. destruct (strip_prefijo s) as [q Hq].
  destruct (lstrip_sufijo s) as [p Hp]. rewrite Hp, Hq.
  apply in_or_app. right. apply in_or_app. now left.
Qed.

Lemma strip_bordes (s : str) :
  (forall c r, strip s = c :: r -> es_espacio c = false)
  /\ (forall c r, strip s = r ++ [c] -> es_espacio c = false).
Proof.
  split; intros c r H.
  - destruct (strip_prefijo s) as [q Hq]. rewrite H in Hq.
    now apply (lstrip_cabeza s c (r ++ q)).
  - unfold strip, rstrip in H. apply (f_equal (@rev char)) in H.
    rewrite rev_involutive, rev_app_distr in H. cbn in H.
    now apply (lstrip_cabeza _ _ _ H).
Qed.

Lemma bucle_lineas_linea (L : list str) (l : list str) :
  forall k n,
    bucle_lineas L (enumerate_desde k l) = Some n ->
    exists i, k <= i /\ i < k + List.length l /\ 0 < i
              /\ n = strip (nth (i - 1) L []).
Proof.
  induction l as [|x l IH]; intros k n H; [discriminate H|].
  cbn [enumerate_desde bucle_lineas] in H.
  assert (Hrec : bucle_lineas L (enumerate_desde (S k) l) = Some n ->
                 exists i, k <= i /\ i < k + List.length (x :: l) /\ 0 < i
                           /\ n = strip (nth (i - 1) L [])).
  { intros Hr. destruct (IH _ _ Hr) as [i [H1 [H2 [H3 H4]]]].
    exists i. cbn [List.length]. repeat split; try lia. exact H4. }
  destruct (contiene ancla x); [|now apply Hrec].
  destruct (0 <? k) eqn:Hk; [|now apply Hrec].
  apply Nat.ltb_lt in Hk. injection H as <-. exists k. cbn [List.length].
  repeat split; lia.
Qed.

(** X15. The name the extractor returns is one line of the text, stripped:
    it holds no line break and neither begins nor ends with a blank, whatever
    the text is. *)
Theorem nombre_extraido_recortado :
  forall (texto n : str),
    extraer_nombre texto = Some n ->
    (exists linea, In linea (split_nl texto) /\ n = strip linea)
    /\ ~ In 10%N n
    /\ (forall c r, n = c :: r -> es_espacio c = false)
    /\ (forall c r, n = r ++ [c] -> es_espacio c = false).
Proof.
  intros texto n H. unfold extraer_nombre, enumerate in H.
  apply bucle_lineas_linea in H. destruct H as [i [_ [Hlen [Hpos ->]]]].
  cbn [Nat.add] in Hlen.
  assert (Hin : In (nth (i - 1) (split_nl texto) []) (split_nl texto))
    by (apply nth_In; lia).
  split; [eauto|]. split.
  - intros Hc. apply strip_dentro in Hc.
    pose proof (split_nl_sin_salto texto) as Hf. rewrite Forall_forall in Hf.
    exact (Hf _ Hin Hc).
  - apply strip_bordes.
Qed.

Lemma nombre_extraido_recortado_witness :
  (exists linea, In linea (split_nl texto_ejemplo) /\ lit "B" = strip linea)
  /\ ~ In 10%N (lit "B")
  /\ (forall c r, lit "B" = c :: r -> es_espacio c = false)
  /\ (forall c r, lit "B" = r ++ [c] -> es_espacio c = false).
Proof.
  apply (nombre_extraido_recortado texto_ejemplo (lit "B")).
  vm_compute. reflexivity.
Defined.

(** ** The paths the run returns *)

Lemma In_renombrar_otro (f nuevo d : str) (fs : list (str * lectura)) :
  In d (map fst fs) -> d <> f ->
  In d (map fst (map (renombrar_entrada f nuevo) fs)).
Proof.
  induction fs as [|[a l] fs IH]; intros Hin Hne; [destruct Hin|].
  cbn [map].
  replace (renombrar_entrada f nuevo (a, l))
    with (if eqb a f then (nuevo, l) else (a, l)) by reflexivity.
  cbn [map fst] in Hin. destruct Hin as [<-|Hin].
  - assert (E : eqb a f = false) by now apply eqb_neq.
    rewrite E. now left.
  - right. now apply IH.
Qed.

Lemma In_renombrar_nuevo (f nuevo : str) (fs : list (str * lectura)) :
  In f (map fst fs) ->
  In nuevo (map fst (map (renombrar_entrada f nuevo) fs)).
Proof.
  induction fs as [|[a l] fs IH]; intros Hin; [destruct Hin|].
  cbn [map].
  replace (renombrar_entrada f nuevo (a, l))
    with (if eqb a f then (nuevo, l) else (a, l)) by reflexivity.
  cbn [map fst] in Hin. destruct (eqb a f) eqn:E.
  - now left.
  - right. apply IH. destruct Hin as [->|Hin]; [|exact Hin].
    now rewrite eqb_refl in E.
Qed.

Lemma bucle_archivos_rutas (dirnames : list str) (dirpath : str)
    (filenames : list str) :
  forall (st : estado) (hechos : list str),
    NoDup filenames ->
    NoDup (map fst (archivos st)) ->
    incl filenames (map fst (archivos st)) ->
    (forall d, In d hechos -> In d (map fst (archivos st)) /\ ~ In d filenames) ->
    exists st' nuevos,
      bucle_archivos dirnames dirpath filenames st = (Ok tt, st')
      /\ renombrados_info st'
         = renombrados_info st ++ map (os_path_join dirpath) nuevos
      /\ forall d, In d (hechos ++ nuevos) -> In d (map fst (archivos st')).
Proof.
  induction filenames as [|f resto IH]; intros st hechos Hnd Hfs Hincl Hh.
  - exists st, []. split; [reflexivity|]. split; [cbn; now rewrite app_nil_r|].
    intros d Hd. rewrite app_nil_r in Hd. now apply Hh.
  - inversion Hnd as [|? ? Hf Hnd']; subst.
    assert (Hfin : In f (map fst (archivos st))) by (apply Hincl; now left).
    assert (Hresto : incl resto (map fst (archivos st)))
      by (intros x Hx; apply Hincl; now right).
    assert (Hh' : forall d, In d hechos ->
                            In d (map fst (archivos st)) /\ ~ In d resto)
      by (intros d Hd; destruct (Hh d Hd) as [H1 H2]; split;
          [exact H1|intros H; apply H2; now right]).
    cbn [bucle_archivos]. unfold bind at 1. destruct (es_pdf f).
    2:{ unfold ret at 1. now apply IH. }
    destruct (procesar_pdf_paso dirnames dirpath f st) as [st1 [E Hp]].
    rewrite E. destruct Hp as [e He| msg | | |nuevo Hlibre _].
    + destruct (IH (anotar_problema
                      (Error (msg_excepcion (os_path_join dirpath f) e))
                      (msg_excepcion (os_path_join dirpath f) e) (contar_pdf st))
                   hechos Hnd' Hfs Hresto Hh') as [st' [nuevos [E' [Hr Hn]]]].
      exists st', nuevos. now split.
    + destruct (IH (anotar_problema (Advertencia msg) msg (contar_pdf st))
                   hechos Hnd' Hfs Hresto Hh') as [st' [nuevos [E' [Hr Hn]]]].
      exists st', nuevos. now split.
    + destruct (IH (anotar_problema
                      (Error (msg_sin_clave (os_path_join dirpath f)))
                      (msg_sin_clave (os_path_join dirpath f)) (contar_pdf st))
                   hechos Hnd' Hfs Hresto Hh') as [st' [nuevos [E' [Hr Hn]]]].
      exists st', nuevos. now split.
    + destruct (IH (anotar_renombrado (YaNombrado (os_path_join dirpath f))
                      (os_path_join dirpath f) (contar_pdf st))
                   (hechos ++ [f]) Hnd' Hfs Hresto) as [st' [nuevos [E' [Hr Hn]]]].
      { intros d Hd. apply in_app_or in Hd. destruct Hd as [Hd|[<-|[]]];
          [now apply Hh'|now split]. }
      exists st', (f :: nuevos). split; [exact E'|]. split.
      * rewrite Hr. cbn. now rewrite <- app_assoc.
      * intros d Hd. apply Hn. rewrite <- app_assoc. exact Hd.
    + assert (Hno : ~ In nuevo (map fst (archivos st)))
        by now apply (no_existe_no_esta dirnames).
      destruct (IH (anotar_renombrado
                      (Renombrado (os_path_join dirpath f)
                                  (os_path_join dirpath nuevo))
                      (os_path_join dirpath nuevo)
                      (con_archivos
                         (map (renombrar_entrada f nuevo) (archivos st))
                         (contar_pdf st)))
                   (hechos ++ [nuevo]) Hnd') as [st' [nuevos [E' [Hr Hn]]]].
      { cbn [archivos anotar_renombrado con_archivos]. now apply NoDup_renombrar. }
      { cbn [archivos anotar_renombrado con_archivos]. intros g Hg.
        apply In_renombrar_otro; [now apply Hresto|]. intros ->. contradiction. }
      { cbn [archivos anotar_renombrado con_archivos]. intros d Hd.
        apply in_app_or in Hd. destruct Hd as [Hd|[<-|[]]].
        - destruct (Hh d Hd) as [H1 H2]. split.
          + apply In_renombrar_otro; [exact H1|]. intros ->. apply H2. now left.
          + intros H. apply H2. now right.
        - split; [now apply In_renombrar_nuevo|].
          intros H. apply Hno. now apply Hresto. }
      exists st', (nuevo :: nuevos). split; [exact E'|]. split.
      * rewrite Hr. cbn. now rewrite <- app_assoc.
      * intros d Hd. apply Hn. rewrite <- app_assoc. exact Hd.
Qed.

Lemma recorrer_rutas (t : arbol) :
  forall dirpath st,
    bien_formado t = true ->
    exists t' st' nuevos,
      recorrer dirpath t st = (Ok t', st')
      /\ renombrados_info st' = renombrados_info st ++ nuevos
      /\ forall p, In p nuevos -> es_archivo_de dirpath t' p.
Proof.
  induction t as [fs subs IH] using arbol_rect'. intros dirpath st Hbf.
  cbn [bien_formado] in Hbf. apply andb_true_iff in Hbf. destruct Hbf as [Hfs Hsubs].
  apply nombres_unicos_NoDup in Hfs.
  cbn [recorrer]. unfold bind at 1, modificar at 1. unfold bind at 1.
  destruct (bucle_archivos_rutas (map fst subs) dirpath (map fst fs)
              (con_archivos fs st) [] Hfs Hfs (incl_refl _))
    as [st1 [hechos [E1 [Hr1 Hh]]]]; [intros d []|].
  rewrite E1. unfold bind at 1, leer at 1.
  cbn [renombrados_info con_archivos] in Hr1. cbn [app] in Hh.
  assert (Hb : forall s0, exists l' s1 nuevos,
             bajar (fun d sub => recorrer (os_path_join dirpath d) sub) subs s0
             = (Ok l', s1)
             /\ renombrados_info s1 = renombrados_info s0 ++ nuevos
             /\ forall p, In p nuevos ->
                  exists d sub', In (d, sub') l'
                                 /\ es_archivo_de (os_path_join dirpath d) sub' p).
  { clear E1 Hr1 Hh. induction IH as [|[d sub] l Hsub _ IHl]; intros s0.
    - exists [], s0, []. split; [reflexivity|]. split; [now rewrite app_nil_r|].
      intros p [].
    - cbn [forallb] in Hsubs. apply andb_true_iff in Hsubs.
      destruct Hsubs as [Hsub_bf Hl].
      cbn [bajar]. unfold bind at 1. cbn [snd] in Hsub.
      destruct (Hsub (os_path_join dirpath d) s0 Hsub_bf)
        as [sub' [s1 [n1 [E [Hr Hp]]]]].
      rewrite E. unfold bind at 1.
      destruct (IHl Hl s1) as [l' [s2 [n2 [E' [Hr' Hp']]]]]. rewrite E'.
      exists ((d, sub') :: l'), s2, (n1 ++ n2). split; [reflexivity|]. split.
      + rewrite Hr', Hr. now rewrite app_assoc.
      + intros p Hin. apply in_app_or in Hin. destruct Hin as [Hin|Hin].
        * exists d, sub'. split; [now left|now apply Hp].
        * destruct (Hp' p Hin) as [d' [s' [Hin' Ha]]].
          exists d', s'. split; [now right|exact Ha]. }
  destruct (Hb st1) as [l' [s1 [nuevos [E [Hr Hp]]]]].
  unfold bind at 1. rewrite E.
  exists (Dir (archivos st1) l'), s1, (map (os_path_join dirpath) hechos ++ nuevos).
  split; [reflexivity|]. split.
  - rewrite Hr, Hr1. now rewrite app_assoc.
  - intros p Hin. apply in_app_or in Hin. destruct Hin as [Hin|Hin].
    + apply in_map_iff in Hin. destruct Hin as [d [<- Hd]].
      apply Hh in Hd. apply in_map_iff in Hd. destruct Hd as [[d' c] [Heq Hd]].
      cbn [fst] in Heq. subst d'.
      exists dirpath, d, c. split; [now apply archivo_aqui|reflexivity].
    + destruct (Hp p Hin) as [d [sub' [Hin' [dp' [n [c [Hen Hpath]]]]]]].
      exists dp', n, c. split; [|exact Hpath].
      now apply (archivo_abajo dirpath _ _ d sub').
Qed.

(** X16. In a tree whose directories hold no file name twice, every path of
    the list of renamed files the run returns is the path, relative to the
    root, of a file of the tree the run leaves: a later rename never moves or
    replaces a file the list already names. *)
Theorem rutas_devueltas_existen :
  forall t : arbol,
    bien_formado t = true ->
    exists t' st,
      renombrar_pdfs_en_directorio t = (Ok t', st)
      /\ forall p, In p (renombrados_info st) ->
           exists dirpath n c,
             archivo_en [] t' dirpath n c /\ p = os_path_join dirpath n.
Proof.
  intros t Hbf.
  destruct (recorrer_rutas t [] estado_inicial Hbf) as [t' [st [nuevos [E [Hr Hp]]]]].
  destruct (renombrar_desde_recorrer t t' st E) as [st' [Erun [_ Hr']]].
  exists t', st'. split; [exact Erun|]. intros p Hin.
  rewrite Hr', Hr in Hin. cbn in Hin. exact (Hp p Hin).
Qed.

Lemma rutas_devueltas_existen_witness :
  exists t' st,
    renombrar_pdfs_en_directorio dir_problemas = (Ok t', st)
    /\ forall p, In p (renombrados_info st) ->
         exists dirpath n c,
           archivo_en [] t' dirpath n c /\ p = os_path_join dirpath n.
Proof.
  apply (rutas_devueltas_existen dir_problemas). vm_compute. reflexivity.
Defined.

Example rutas_devueltas_ejemplo :
  renombrados_info (snd (renombrar_pdfs_en_directorio dir_problemas))
  = [lit "X Y.pdf"; lit "Ana.pdf"; lit "sub/X Y.pdf"].
Proof. vm_compute. reflexivity. Qed.

(** ** The test of the extension *)

Lemma lower_char_letra (x y : char) :
  (97 <= y <= 122)%N ->
  N.eqb y (lower_char x) = (N.eqb x y || N.eqb x (y - 32))%bool.
Proof.
  intros Hy. apply eq_iff_eq_true. rewrite orb_true_iff, !N.eqb_eq.
  unfold lower_char.
  destruct (65 <=? x)%N eqn:H1; destruct (x <=? 90)%N eqn:H2; cbn [andb];
    try apply N.leb_le in H1; try apply N.leb_le in H2;
    try apply N.leb_gt in H1; try apply N.leb_gt in H2; lia.
Qed.

Lemma lower_char_punto (x : char) : N.eqb 46%N (lower_char x) = N.eqb x 46%N.
Proof.
  apply eq_iff_eq_true. rewrite !N.eqb_eq. unfold lower_char.
  destruct (65 <=? x)%N eqn:H1; destruct (x <=? 90)%N eqn:H2; cbn [andb];
    try apply N.leb_le in H1; try apply N.leb_le in H2;
    try apply N.leb_gt in H1; try apply N.leb_gt in H2; lia.
Qed.

Lemma es_pdf_ultimos (s : str) (a b c d : char) :
  es_pdf (s ++ [a; b; c; d]) = es_sufijo_pdf a b c d.
Proof.
  unfold es_pdf, endswith, lower. rewrite map_app, rev_app_distr.
  change (rev (lit ".pdf")) with [102; 100; 112; 46]%N.
  cbn [map rev app startswith].
  rewrite (lower_char_letra d 102%N), (lower_char_letra c 100%N),
          (lower_char_letra b 112%N), lower_char_punto by lia.
  unfold es_sufijo_pdf.
  change (102 - 32)%N with 70%N. change (100 - 32)%N with 68%N.
  change (112 - 32)%N with 80%N.
  generalize (N.eqb a 46%N) (N.eqb b 112%N || N.eqb b 80%N)%bool
             (N.eqb c 100%N || N.eqb c 68%N)%bool
             (N.eqb d 102%N || N.eqb d 70%N)%bool.
  intros [|] [|] [|] [|]; reflexivity.
Qed.

Lemma es_pdf_corto (n : str) : List.length n < 4 -> es_pdf n = false.
Proof.
  intros H. destruct n as [|a [|b [|c [|d n]]]]; try reflexivity;
    try (cbn [List.length] in H; lia);
    unfold es_pdf, endswith, lower;
    change (rev (lit ".pdf")) with [102; 100; 112; 46]%N;
    cbn [map rev app startswith]; rewrite ?andb_false_r; reflexivity.
Qed.

(** X17. The test that decides which files the engine reads and which the
    output archive stores looks at the last four characters of the name only,
    and takes any mix of cases: a name passes exactly when it ends with a dot
    followed by p or P, d or D, f or F; a name of fewer than four characters
    never passes. *)
Theorem es_pdf_sin_distinguir_mayusculas :
  forall n : str,
    es_pdf n = true
    <-> exists s a b c d,
          n = s ++ [a; b; c; d]
          /\ a = 46%N /\ (b = 112 \/ b = 80)%N /\ (c = 100 \/ c = 68)%N
          /\ (d = 102 \/ d = 70)%N.
Proof.
  intros n. split.
  - intros H.
    destruct (Nat.lt_ge_cases (List.length n) 4) as [Hlt|Hge];
      [rewrite (es_pdf_corto n Hlt) in H; discriminate H|].
    assert (Hn : n = firstn (List.length n - 4) n ++ skipn (List.length n - 4) n)
      by (symmetry; apply firstn_skipn).
    assert (Hl : List.length (skipn (List.length n - 4) n) = 4)
      by (rewrite length_skipn; lia).
    destruct (skipn (List.length n - 4) n) as [|a [|b [|c [|d [|x r]]]]];
      try discriminate Hl.
    rewrite Hn, es_pdf_ultimos in H. unfold es_sufijo_pdf in H.
    repeat (apply andb_true_iff in H; destruct H as [H ?]).
    exists (firstn (List.length n - 4) n), a, b, c, d.
    split; [exact Hn|].
    repeat match goal with
           | H : (_ || _)%bool = true |- _ => apply orb_true_iff in H
           end.
    rewrite ?N.eqb_eq in *. tauto.
  - intros [s [a [b [c [d [-> [-> [Hb [Hc Hd]]]]]]]]].
    rewrite es_pdf_ultimos. unfold es_sufijo_pdf.
    destruct Hb as [-> | ->], Hc as [-> | ->], Hd as [-> | ->]; reflexivity.
Qed.

(** ** A collision at a name with an extension *)




Example colision_tercer_documento :
  map fst (archivos (snd (procesar_pdf [] [] (lit "z.pdf") estado_colision)))
  = [lit "Juan Perez.pdf"; lit "Juan Perez_1.pdf"; lit "Juan Perez_2.pdf"].
Proof. vm_compute. reflexivity. Qed.
